(** * Mapping pickle identifiers to ClinVar coordinates

    A shallow embedding of [scripts/make_pickle_id_to_chrposrefalt.py] and the
    properties of its three stages: reading the wanted identifiers from the
    sample corpus, scanning and filtering the reference rows, and partitioning
    the candidates into the unique and the ambiguous table.

    Python values are modelled as follows.
    - [int] is [Z]; the counters, which start at zero and only grow, are [nat].
    - [str] is a list of Unicode code points ([pystr]); the string methods the
      script calls ([strip], [upper], [lower], [isdigit]) and [int] follow
      CPython 3.11 with the Unicode 14.0 character database.
    - [set] is [gset] and [dict] is [gmap]; the order in which a [dict] is
      iterated is an explicit argument wherever the script iterates one. *)

From Stdlib Require Import ZArith NArith Lia Floats.SpecFloat.
From stdpp Require Import gmap sorting strings.

Local Open Scope N_scope.

(** A Python [str]: its code points. *)
Abbreviation pystr := (list N).

(** The [str] of an ASCII literal. *)
Definition str (s : string) : pystr :=
  Ascii.N_of_ascii <$> String.list_ascii_of_string s.

(** ** The Unicode character database and the [str] methods *)

Module PyUnicode.

(** Code points for which [str.isspace] holds; [str.strip] removes them. *)
Definition space_table : list (N * N) :=
  [(0x9, 0xd); (0x1c, 0x20); (0x85, 0x85); (0xa0, 0xa0); (0x1680, 0x1680); (0x2000, 0x200a);
   (0x2028, 0x2029); (0x202f, 0x202f); (0x205f, 0x205f); (0x3000, 0x3000)]%N.

(** Code points for which [str.isdigit] holds (Numeric_Type Decimal or Digit). *)
Definition digit_table : list (N * N) :=
  [(0x30, 0x39); (0xb2, 0xb3); (0xb9, 0xb9); (0x660, 0x669); (0x6f0, 0x6f9); (0x7c0, 0x7c9);
   (0x966, 0x96f); (0x9e6, 0x9ef); (0xa66, 0xa6f); (0xae6, 0xaef); (0xb66, 0xb6f); (0xbe6, 0xbef);
   (0xc66, 0xc6f); (0xce6, 0xcef); (0xd66, 0xd6f); (0xde6, 0xdef); (0xe50, 0xe59); (0xed0, 0xed9);
   (0xf20, 0xf29); (0x1040, 0x1049); (0x1090, 0x1099); (0x1369, 0x1371); (0x17e0, 0x17e9); (0x1810, 0x1819);
   (0x1946, 0x194f); (0x19d0, 0x19da); (0x1a80, 0x1a89); (0x1a90, 0x1a99); (0x1b50, 0x1b59); (0x1bb0, 0x1bb9);
   (0x1c40, 0x1c49); (0x1c50, 0x1c59); (0x2070, 0x2070); (0x2074, 0x2079); (0x2080, 0x2089); (0x2460, 0x2468);
   (0x2474, 0x247c); (0x2488, 0x2490); (0x24ea, 0x24ea); (0x24f5, 0x24fd); (0x24ff, 0x24ff); (0x2776, 0x277e);
   (0x2780, 0x2788); (0x278a, 0x2792); (0xa620, 0xa629); (0xa8d0, 0xa8d9); (0xa900, 0xa909); (0xa9d0, 0xa9d9);
   (0xa9f0, 0xa9f9); (0xaa50, 0xaa59); (0xabf0, 0xabf9); (0xff10, 0xff19); (0x104a0, 0x104a9); (0x10a40, 0x10a43);
   (0x10d30, 0x10d39); (0x10e60, 0x10e68); (0x11052, 0x1105a); (0x11066, 0x1106f); (0x110f0, 0x110f9); (0x11136, 0x1113f);
   (0x111d0, 0x111d9); (0x112f0, 0x112f9); (0x11450, 0x11459); (0x114d0, 0x114d9); (0x11650, 0x11659); (0x116c0, 0x116c9);
   (0x11730, 0x11739); (0x118e0, 0x118e9); (0x11950, 0x11959); (0x11c50, 0x11c59); (0x11d50, 0x11d59); (0x11da0, 0x11da9);
   (0x16a60, 0x16a69); (0x16ac0, 0x16ac9); (0x16b50, 0x16b59); (0x1d7ce, 0x1d7ff); (0x1e140, 0x1e149); (0x1e2f0, 0x1e2f9);
   (0x1e950, 0x1e959); (0x1f100, 0x1f10a); (0x1fbf0, 0x1fbf9)]%N.

(** Runs of decimal digits (category Nd); every run counts 0..9 from its start. *)
Definition decimal_table : list (N * N) :=
  [(0x30, 0x39); (0x660, 0x669); (0x6f0, 0x6f9); (0x7c0, 0x7c9); (0x966, 0x96f); (0x9e6, 0x9ef);
   (0xa66, 0xa6f); (0xae6, 0xaef); (0xb66, 0xb6f); (0xbe6, 0xbef); (0xc66, 0xc6f); (0xce6, 0xcef);
   (0xd66, 0xd6f); (0xde6, 0xdef); (0xe50, 0xe59); (0xed0, 0xed9); (0xf20, 0xf29); (0x1040, 0x1049);
   (0x1090, 0x1099); (0x17e0, 0x17e9); (0x1810, 0x1819); (0x1946, 0x194f); (0x19d0, 0x19d9); (0x1a80, 0x1a89);
   (0x1a90, 0x1a99); (0x1b50, 0x1b59); (0x1bb0, 0x1bb9); (0x1c40, 0x1c49); (0x1c50, 0x1c59); (0xa620, 0xa629);
   (0xa8d0, 0xa8d9); (0xa900, 0xa909); (0xa9d0, 0xa9d9); (0xa9f0, 0xa9f9); (0xaa50, 0xaa59); (0xabf0, 0xabf9);
   (0xff10, 0xff19); (0x104a0, 0x104a9); (0x10d30, 0x10d39); (0x11066, 0x1106f); (0x110f0, 0x110f9); (0x11136, 0x1113f);
   (0x111d0, 0x111d9); (0x112f0, 0x112f9); (0x11450, 0x11459); (0x114d0, 0x114d9); (0x11650, 0x11659); (0x116c0, 0x116c9);
   (0x11730, 0x11739); (0x118e0, 0x118e9); (0x11950, 0x11959); (0x11c50, 0x11c59); (0x11d50, 0x11d59); (0x11da0, 0x11da9);
   (0x16a60, 0x16a69); (0x16ac0, 0x16ac9); (0x16b50, 0x16b59); (0x1d7ce, 0x1d7ff); (0x1e140, 0x1e149); (0x1e2f0, 0x1e2f9);
   (0x1e950, 0x1e959); (0x1fbf0, 0x1fbf9)]%N.

(** Code points with the Cased property. *)
Definition cased_table : list (N * N) :=
  [(0x41, 0x5a); (0x61, 0x7a); (0xaa, 0xaa); (0xb5, 0xb5); (0xba, 0xba); (0xc0, 0xd6);
   (0xd8, 0xf6); (0xf8, 0x1ba); (0x1bc, 0x1bf); (0x1c4, 0x293); (0x295, 0x2b8); (0x2c0, 0x2c1);
   (0x2e0, 0x2e4); (0x345, 0x345); (0x370, 0x373); (0x376, 0x377); (0x37a, 0x37d); (0x37f, 0x37f);
   (0x386, 0x386); (0x388, 0x38a); (0x38c, 0x38c); (0x38e, 0x3a1); (0x3a3, 0x3f5); (0x3f7, 0x481);
   (0x48a, 0x52f); (0x531, 0x556); (0x560, 0x588); (0x10a0, 0x10c5); (0x10c7, 0x10c7); (0x10cd, 0x10cd);
   (0x10d0, 0x10fa); (0x10fd, 0x10ff); (0x13a0, 0x13f5); (0x13f8, 0x13fd); (0x1c80, 0x1c88); (0x1c90, 0x1cba);
   (0x1cbd, 0x1cbf); (0x1d00, 0x1dbf); (0x1e00, 0x1f15); (0x1f18, 0x1f1d); (0x1f20, 0x1f45); (0x1f48, 0x1f4d);
   (0x1f50, 0x1f57); (0x1f59, 0x1f59); (0x1f5b, 0x1f5b); (0x1f5d, 0x1f5d); (0x1f5f, 0x1f7d); (0x1f80, 0x1fb4);
   (0x1fb6, 0x1fbc); (0x1fbe, 0x1fbe); (0x1fc2, 0x1fc4); (0x1fc6, 0x1fcc); (0x1fd0, 0x1fd3); (0x1fd6, 0x1fdb);
   (0x1fe0, 0x1fec); (0x1ff2, 0x1ff4); (0x1ff6, 0x1ffc); (0x2071, 0x2071); (0x207f, 0x207f); (0x2090, 0x209c);
   (0x2102, 0x2102); (0x2107, 0x2107); (0x210a, 0x2113); (0x2115, 0x2115); (0x2119, 0x211d); (0x2124, 0x2124);
   (0x2126, 0x2126); (0x2128, 0x2128); (0x212a, 0x212d); (0x212f, 0x2134); (0x2139, 0x2139); (0x213c, 0x213f);
   (0x2145, 0x2149); (0x214e, 0x214e); (0x2160, 0x217f); (0x2183, 0x2184); (0x24b6, 0x24e9); (0x2c00, 0x2ce4);
   (0x2ceb, 0x2cee); (0x2cf2, 0x2cf3); (0x2d00, 0x2d25); (0x2d27, 0x2d27); (0x2d2d, 0x2d2d); (0xa640, 0xa66d);
   (0xa680, 0xa69d); (0xa722, 0xa787); (0xa78b, 0xa78e); (0xa790, 0xa7ca); (0xa7d0, 0xa7d1); (0xa7d3, 0xa7d3);
   (0xa7d5, 0xa7d9); (0xa7f5, 0xa7f6); (0xa7f8, 0xa7fa); (0xab30, 0xab5a); (0xab5c, 0xab68); (0xab70, 0xabbf);
   (0xfb00, 0xfb06); (0xfb13, 0xfb17); (0xff21, 0xff3a); (0xff41, 0xff5a); (0x10400, 0x1044f); (0x104b0, 0x104d3);
   (0x104d8, 0x104fb); (0x10570, 0x1057a); (0x1057c, 0x1058a); (0x1058c, 0x10592); (0x10594, 0x10595); (0x10597, 0x105a1);
   (0x105a3, 0x105b1); (0x105b3, 0x105b9); (0x105bb, 0x105bc); (0x10780, 0x10780); (0x10783, 0x10785); (0x10787, 0x107b0);
   (0x107b2, 0x107ba); (0x10c80, 0x10cb2); (0x10cc0, 0x10cf2); (0x118a0, 0x118df); (0x16e40, 0x16e7f); (0x1d400, 0x1d454);
   (0x1d456, 0x1d49c); (0x1d49e, 0x1d49f); (0x1d4a2, 0x1d4a2); (0x1d4a5, 0x1d4a6); (0x1d4a9, 0x1d4ac); (0x1d4ae, 0x1d4b9);
   (0x1d4bb, 0x1d4bb); (0x1d4bd, 0x1d4c3); (0x1d4c5, 0x1d505); (0x1d507, 0x1d50a); (0x1d50d, 0x1d514); (0x1d516, 0x1d51c);
   (0x1d51e, 0x1d539); (0x1d53b, 0x1d53e); (0x1d540, 0x1d544); (0x1d546, 0x1d546); (0x1d54a, 0x1d550); (0x1d552, 0x1d6a5);
   (0x1d6a8, 0x1d6c0); (0x1d6c2, 0x1d6da); (0x1d6dc, 0x1d6fa); (0x1d6fc, 0x1d714); (0x1d716, 0x1d734); (0x1d736, 0x1d74e);
   (0x1d750, 0x1d76e); (0x1d770, 0x1d788); (0x1d78a, 0x1d7a8); (0x1d7aa, 0x1d7c2); (0x1d7c4, 0x1d7cb); (0x1df00, 0x1df09);
   (0x1df0b, 0x1df1e); (0x1e900, 0x1e943); (0x1f130, 0x1f149); (0x1f150, 0x1f169); (0x1f170, 0x1f189)]%N.

(** Code points with the Case_Ignorable property. *)
Definition case_ignorable_table : list (N * N) :=
  [(0x27, 0x27); (0x2e, 0x2e); (0x3a, 0x3a); (0x5e, 0x5e); (0x60, 0x60); (0xa8, 0xa8);
   (0xad, 0xad); (0xaf, 0xaf); (0xb4, 0xb4); (0xb7, 0xb8); (0x2b0, 0x36f); (0x374, 0x375);
   (0x37a, 0x37a); (0x384, 0x385); (0x387, 0x387); (0x483, 0x489); (0x559, 0x559); (0x55f, 0x55f);
   (0x591, 0x5bd); (0x5bf, 0x5bf); (0x5c1, 0x5c2); (0x5c4, 0x5c5); (0x5c7, 0x5c7); (0x5f4, 0x5f4);
   (0x600, 0x605); (0x610, 0x61a); (0x61c, 0x61c); (0x640, 0x640); (0x64b, 0x65f); (0x670, 0x670);
   (0x6d6, 0x6dd); (0x6df, 0x6e8); (0x6ea, 0x6ed); (0x70f, 0x70f); (0x711, 0x711); (0x730, 0x74a);
   (0x7a6, 0x7b0); (0x7eb, 0x7f5); (0x7fa, 0x7fa); (0x7fd, 0x7fd); (0x816, 0x82d); (0x859, 0x85b);
   (0x888, 0x888); (0x890, 0x891); (0x898, 0x89f); (0x8c9, 0x902); (0x93a, 0x93a); (0x93c, 0x93c);
   (0x941, 0x948); (0x94d, 0x94d); (0x951, 0x957); (0x962, 0x963); (0x971, 0x971); (0x981, 0x981);
   (0x9bc, 0x9bc); (0x9c1, 0x9c4); (0x9cd, 0x9cd); (0x9e2, 0x9e3); (0x9fe, 0x9fe); (0xa01, 0xa02);
   (0xa3c, 0xa3c); (0xa41, 0xa42); (0xa47, 0xa48); (0xa4b, 0xa4d); (0xa51, 0xa51); (0xa70, 0xa71);
   (0xa75, 0xa75); (0xa81, 0xa82); (0xabc, 0xabc); (0xac1, 0xac5); (0xac7, 0xac8); (0xacd, 0xacd);
   (0xae2, 0xae3); (0xafa, 0xaff); (0xb01, 0xb01); (0xb3c, 0xb3c); (0xb3f, 0xb3f); (0xb41, 0xb44);
   (0xb4d, 0xb4d); (0xb55, 0xb56); (0xb62, 0xb63); (0xb82, 0xb82); (0xbc0, 0xbc0); (0xbcd, 0xbcd);
   (0xc00, 0xc00); (0xc04, 0xc04); (0xc3c, 0xc3c); (0xc3e, 0xc40); (0xc46, 0xc48); (0xc4a, 0xc4d);
   (0xc55, 0xc56); (0xc62, 0xc63); (0xc81, 0xc81); (0xcbc, 0xcbc); (0xcbf, 0xcbf); (0xcc6, 0xcc6);
   (0xccc, 0xccd); (0xce2, 0xce3); (0xd00, 0xd01); (0xd3b, 0xd3c); (0xd41, 0xd44); (0xd4d, 0xd4d);
   (0xd62, 0xd63); (0xd81, 0xd81); (0xdca, 0xdca); (0xdd2, 0xdd4); (0xdd6, 0xdd6); (0xe31, 0xe31);
   (0xe34, 0xe3a); (0xe46, 0xe4e); (0xeb1, 0xeb1); (0xeb4, 0xebc); (0xec6, 0xec6); (0xec8, 0xecd);
   (0xf18, 0xf19); (0xf35, 0xf35); (0xf37, 0xf37); (0xf39, 0xf39); (0xf71, 0xf7e); (0xf80, 0xf84);
   (0xf86, 0xf87); (0xf8d, 0xf97); (0xf99, 0xfbc); (0xfc6, 0xfc6); (0x102d, 0x1030); (0x1032, 0x1037);
   (0x1039, 0x103a); (0x103d, 0x103e); (0x1058, 0x1059); (0x105e, 0x1060); (0x1071, 0x1074); (0x1082, 0x1082);
   (0x1085, 0x1086); (0x108d, 0x108d); (0x109d, 0x109d); (0x10fc, 0x10fc); (0x135d, 0x135f); (0x1712, 0x1714);
   (0x1732, 0x1733); (0x1752, 0x1753); (0x1772, 0x1773); (0x17b4, 0x17b5); (0x17b7, 0x17bd); (0x17c6, 0x17c6);
   (0x17c9, 0x17d3); (0x17d7, 0x17d7); (0x17dd, 0x17dd); (0x180b, 0x180f); (0x1843, 0x1843); (0x1885, 0x1886);
   (0x18a9, 0x18a9); (0x1920, 0x1922); (0x1927, 0x1928); (0x1932, 0x1932); (0x1939, 0x193b); (0x1a17, 0x1a18);
   (0x1a1b, 0x1a1b); (0x1a56, 0x1a56); (0x1a58, 0x1a5e); (0x1a60, 0x1a60); (0x1a62, 0x1a62); (0x1a65, 0x1a6c);
   (0x1a73, 0x1a7c); (0x1a7f, 0x1a7f); (0x1aa7, 0x1aa7); (0x1ab0, 0x1ace); (0x1b00, 0x1b03); (0x1b34, 0x1b34);
   (0x1b36, 0x1b3a); (0x1b3c, 0x1b3c); (0x1b42, 0x1b42); (0x1b6b, 0x1b73); (0x1b80, 0x1b81); (0x1ba2, 0x1ba5);
   (0x1ba8, 0x1ba9); (0x1bab, 0x1bad); (0x1be6, 0x1be6); (0x1be8, 0x1be9); (0x1bed, 0x1bed); (0x1bef, 0x1bf1);
   (0x1c2c, 0x1c33); (0x1c36, 0x1c37); (0x1c78, 0x1c7d); (0x1cd0, 0x1cd2); (0x1cd4, 0x1ce0); (0x1ce2, 0x1ce8);
   (0x1ced, 0x1ced); (0x1cf4, 0x1cf4); (0x1cf8, 0x1cf9); (0x1d2c, 0x1d6a); (0x1d78, 0x1d78); (0x1d9b, 0x1dff);
   (0x1fbd, 0x1fbd); (0x1fbf, 0x1fc1); (0x1fcd, 0x1fcf); (0x1fdd, 0x1fdf); (0x1fed, 0x1fef); (0x1ffd, 0x1ffe);
   (0x200b, 0x200f); (0x2018, 0x2019); (0x2024, 0x2024); (0x2027, 0x2027); (0x202a, 0x202e); (0x2060, 0x2064);
   (0x2066, 0x206f); (0x2071, 0x2071); (0x207f, 0x207f); (0x2090, 0x209c); (0x20d0, 0x20f0); (0x2c7c, 0x2c7d);
   (0x2cef, 0x2cf1); (0x2d6f, 0x2d6f); (0x2d7f, 0x2d7f); (0x2de0, 0x2dff); (0x2e2f, 0x2e2f); (0x3005, 0x3005);
   (0x302a, 0x302d); (0x3031, 0x3035); (0x303b, 0x303b); (0x3099, 0x309e); (0x30fc, 0x30fe); (0xa015, 0xa015);
   (0xa4f8, 0xa4fd); (0xa60c, 0xa60c); (0xa66f, 0xa672); (0xa674, 0xa67d); (0xa67f, 0xa67f); (0xa69c, 0xa69f);
   (0xa6f0, 0xa6f1); (0xa700, 0xa721); (0xa770, 0xa770); (0xa788, 0xa78a); (0xa7f2, 0xa7f4); (0xa7f8, 0xa7f9);
   (0xa802, 0xa802); (0xa806, 0xa806); (0xa80b, 0xa80b); (0xa825, 0xa826); (0xa82c, 0xa82c); (0xa8c4, 0xa8c5);
   (0xa8e0, 0xa8f1); (0xa8ff, 0xa8ff); (0xa926, 0xa92d); (0xa947, 0xa951); (0xa980, 0xa982); (0xa9b3, 0xa9b3);
   (0xa9b6, 0xa9b9); (0xa9bc, 0xa9bd); (0xa9cf, 0xa9cf); (0xa9e5, 0xa9e6); (0xaa29, 0xaa2e); (0xaa31, 0xaa32);
   (0xaa35, 0xaa36); (0xaa43, 0xaa43); (0xaa4c, 0xaa4c); (0xaa70, 0xaa70); (0xaa7c, 0xaa7c); (0xaab0, 0xaab0);
   (0xaab2, 0xaab4); (0xaab7, 0xaab8); (0xaabe, 0xaabf); (0xaac1, 0xaac1); (0xaadd, 0xaadd); (0xaaec, 0xaaed);
   (0xaaf3, 0xaaf4); (0xaaf6, 0xaaf6); (0xab5b, 0xab5f); (0xab69, 0xab6b); (0xabe5, 0xabe5); (0xabe8, 0xabe8);
   (0xabed, 0xabed); (0xfb1e, 0xfb1e); (0xfbb2, 0xfbc2); (0xfe00, 0xfe0f); (0xfe13, 0xfe13); (0xfe20, 0xfe2f);
   (0xfe52, 0xfe52); (0xfe55, 0xfe55); (0xfeff, 0xfeff); (0xff07, 0xff07); (0xff0e, 0xff0e); (0xff1a, 0xff1a);
   (0xff3e, 0xff3e); (0xff40, 0xff40); (0xff70, 0xff70); (0xff9e, 0xff9f); (0xffe3, 0xffe3); (0xfff9, 0xfffb);
   (0x101fd, 0x101fd); (0x102e0, 0x102e0); (0x10376, 0x1037a); (0x10780, 0x10785); (0x10787, 0x107b0); (0x107b2, 0x107ba);
   (0x10a01, 0x10a03); (0x10a05, 0x10a06); (0x10a0c, 0x10a0f); (0x10a38, 0x10a3a); (0x10a3f, 0x10a3f); (0x10ae5, 0x10ae6);
   (0x10d24, 0x10d27); (0x10eab, 0x10eac); (0x10f46, 0x10f50); (0x10f82, 0x10f85); (0x11001, 0x11001); (0x11038, 0x11046);
   (0x11070, 0x11070); (0x11073, 0x11074); (0x1107f, 0x11081); (0x110b3, 0x110b6); (0x110b9, 0x110ba); (0x110bd, 0x110bd);
   (0x110c2, 0x110c2); (0x110cd, 0x110cd); (0x11100, 0x11102); (0x11127, 0x1112b); (0x1112d, 0x11134); (0x11173, 0x11173);
   (0x11180, 0x11181); (0x111b6, 0x111be); (0x111c9, 0x111cc); (0x111cf, 0x111cf); (0x1122f, 0x11231); (0x11234, 0x11234);
   (0x11236, 0x11237); (0x1123e, 0x1123e); (0x112df, 0x112df); (0x112e3, 0x112ea); (0x11300, 0x11301); (0x1133b, 0x1133c);
   (0x11340, 0x11340); (0x11366, 0x1136c); (0x11370, 0x11374); (0x11438, 0x1143f); (0x11442, 0x11444); (0x11446, 0x11446);
   (0x1145e, 0x1145e); (0x114b3, 0x114b8); (0x114ba, 0x114ba); (0x114bf, 0x114c0); (0x114c2, 0x114c3); (0x115b2, 0x115b5);
   (0x115bc, 0x115bd); (0x115bf, 0x115c0); (0x115dc, 0x115dd); (0x11633, 0x1163a); (0x1163d, 0x1163d); (0x1163f, 0x11640);
   (0x116ab, 0x116ab); (0x116ad, 0x116ad); (0x116b0, 0x116b5); (0x116b7, 0x116b7); (0x1171d, 0x1171f); (0x11722, 0x11725);
   (0x11727, 0x1172b); (0x1182f, 0x11837); (0x11839, 0x1183a); (0x1193b, 0x1193c); (0x1193e, 0x1193e); (0x11943, 0x11943);
   (0x119d4, 0x119d7); (0x119da, 0x119db); (0x119e0, 0x119e0); (0x11a01, 0x11a0a); (0x11a33, 0x11a38); (0x11a3b, 0x11a3e);
   (0x11a47, 0x11a47); (0x11a51, 0x11a56); (0x11a59, 0x11a5b); (0x11a8a, 0x11a96); (0x11a98, 0x11a99); (0x11c30, 0x11c36);
   (0x11c38, 0x11c3d); (0x11c3f, 0x11c3f); (0x11c92, 0x11ca7); (0x11caa, 0x11cb0); (0x11cb2, 0x11cb3); (0x11cb5, 0x11cb6);
   (0x11d31, 0x11d36); (0x11d3a, 0x11d3a); (0x11d3c, 0x11d3d); (0x11d3f, 0x11d45); (0x11d47, 0x11d47); (0x11d90, 0x11d91);
   (0x11d95, 0x11d95); (0x11d97, 0x11d97); (0x11ef3, 0x11ef4); (0x13430, 0x13438); (0x16af0, 0x16af4); (0x16b30, 0x16b36);
   (0x16b40, 0x16b43); (0x16f4f, 0x16f4f); (0x16f8f, 0x16f9f); (0x16fe0, 0x16fe1); (0x16fe3, 0x16fe4); (0x1aff0, 0x1aff3);
   (0x1aff5, 0x1affb); (0x1affd, 0x1affe); (0x1bc9d, 0x1bc9e); (0x1bca0, 0x1bca3); (0x1cf00, 0x1cf2d); (0x1cf30, 0x1cf46);
   (0x1d167, 0x1d169); (0x1d173, 0x1d182); (0x1d185, 0x1d18b); (0x1d1aa, 0x1d1ad); (0x1d242, 0x1d244); (0x1da00, 0x1da36);
   (0x1da3b, 0x1da6c); (0x1da75, 0x1da75); (0x1da84, 0x1da84); (0x1da9b, 0x1da9f); (0x1daa1, 0x1daaf); (0x1e000, 0x1e006);
   (0x1e008, 0x1e018); (0x1e01b, 0x1e021); (0x1e023, 0x1e024); (0x1e026, 0x1e02a); (0x1e130, 0x1e13d); (0x1e2ae, 0x1e2ae);
   (0x1e2ec, 0x1e2ef); (0x1e8d0, 0x1e8d6); (0x1e944, 0x1e94b); (0x1f3fb, 0x1f3ff); (0xe0001, 0xe0001); (0xe0020, 0xe007f);
   (0xe0100, 0xe01ef)]%N.

(** Simple uppercase mappings as [(first, last, stride, image of first)]. *)
Definition upper_table : list (N * N * N * N) :=
  [(0x61, 0x7a, 1, 0x41); (0xb5, 0xb5, 1, 0x39c); (0xe0, 0xf6, 1, 0xc0); (0xf8, 0xfe, 1, 0xd8);
   (0xff, 0xff, 1, 0x178); (0x101, 0x12f, 2, 0x100); (0x131, 0x131, 1, 0x49); (0x133, 0x137, 2, 0x132);
   (0x13a, 0x148, 2, 0x139); (0x14b, 0x177, 2, 0x14a); (0x17a, 0x17e, 2, 0x179); (0x17f, 0x17f, 1, 0x53);
   (0x180, 0x180, 1, 0x243); (0x183, 0x185, 2, 0x182); (0x188, 0x188, 1, 0x187); (0x18c, 0x18c, 1, 0x18b);
   (0x192, 0x192, 1, 0x191); (0x195, 0x195, 1, 0x1f6); (0x199, 0x199, 1, 0x198); (0x19a, 0x19a, 1, 0x23d);
   (0x19e, 0x19e, 1, 0x220); (0x1a1, 0x1a5, 2, 0x1a0); (0x1a8, 0x1a8, 1, 0x1a7); (0x1ad, 0x1ad, 1, 0x1ac);
   (0x1b0, 0x1b0, 1, 0x1af); (0x1b4, 0x1b6, 2, 0x1b3); (0x1b9, 0x1b9, 1, 0x1b8); (0x1bd, 0x1bd, 1, 0x1bc);
   (0x1bf, 0x1bf, 1, 0x1f7); (0x1c5, 0x1c5, 1, 0x1c4); (0x1c6, 0x1c6, 1, 0x1c4); (0x1c8, 0x1c8, 1, 0x1c7);
   (0x1c9, 0x1c9, 1, 0x1c7); (0x1cb, 0x1cb, 1, 0x1ca); (0x1cc, 0x1cc, 1, 0x1ca); (0x1ce, 0x1dc, 2, 0x1cd);
   (0x1dd, 0x1dd, 1, 0x18e); (0x1df, 0x1ef, 2, 0x1de); (0x1f2, 0x1f2, 1, 0x1f1); (0x1f3, 0x1f3, 1, 0x1f1);
   (0x1f5, 0x1f5, 1, 0x1f4); (0x1f9, 0x21f, 2, 0x1f8); (0x223, 0x233, 2, 0x222); (0x23c, 0x23c, 1, 0x23b);
   (0x23f, 0x240, 1, 0x2c7e); (0x242, 0x242, 1, 0x241); (0x247, 0x24f, 2, 0x246); (0x250, 0x250, 1, 0x2c6f);
   (0x251, 0x251, 1, 0x2c6d); (0x252, 0x252, 1, 0x2c70); (0x253, 0x253, 1, 0x181); (0x254, 0x254, 1, 0x186);
   (0x256, 0x257, 1, 0x189); (0x259, 0x259, 1, 0x18f); (0x25b, 0x25b, 1, 0x190); (0x25c, 0x25c, 1, 0xa7ab);
   (0x260, 0x260, 1, 0x193); (0x261, 0x261, 1, 0xa7ac); (0x263, 0x263, 1, 0x194); (0x265, 0x265, 1, 0xa78d);
   (0x266, 0x266, 1, 0xa7aa); (0x268, 0x268, 1, 0x197); (0x269, 0x269, 1, 0x196); (0x26a, 0x26a, 1, 0xa7ae);
   (0x26b, 0x26b, 1, 0x2c62); (0x26c, 0x26c, 1, 0xa7ad); (0x26f, 0x26f, 1, 0x19c); (0x271, 0x271, 1, 0x2c6e);
   (0x272, 0x272, 1, 0x19d); (0x275, 0x275, 1, 0x19f); (0x27d, 0x27d, 1, 0x2c64); (0x280, 0x280, 1, 0x1a6);
   (0x282, 0x282, 1, 0xa7c5); (0x283, 0x283, 1, 0x1a9); (0x287, 0x287, 1, 0xa7b1); (0x288, 0x288, 1, 0x1ae);
   (0x289, 0x289, 1, 0x244); (0x28a, 0x28b, 1, 0x1b1); (0x28c, 0x28c, 1, 0x245); (0x292, 0x292, 1, 0x1b7);
   (0x29d, 0x29d, 1, 0xa7b2); (0x29e, 0x29e, 1, 0xa7b0); (0x345, 0x345, 1, 0x399); (0x371, 0x373, 2, 0x370);
   (0x377, 0x377, 1, 0x376); (0x37b, 0x37d, 1, 0x3fd); (0x3ac, 0x3ac, 1, 0x386); (0x3ad, 0x3af, 1, 0x388);
   (0x3b1, 0x3c1, 1, 0x391); (0x3c2, 0x3c2, 1, 0x3a3); (0x3c3, 0x3cb, 1, 0x3a3); (0x3cc, 0x3cc, 1, 0x38c);
   (0x3cd, 0x3ce, 1, 0x38e); (0x3d0, 0x3d0, 1, 0x392); (0x3d1, 0x3d1, 1, 0x398); (0x3d5, 0x3d5, 1, 0x3a6);
   (0x3d6, 0x3d6, 1, 0x3a0); (0x3d7, 0x3d7, 1, 0x3cf); (0x3d9, 0x3ef, 2, 0x3d8); (0x3f0, 0x3f0, 1, 0x39a);
   (0x3f1, 0x3f1, 1, 0x3a1); (0x3f2, 0x3f2, 1, 0x3f9); (0x3f3, 0x3f3, 1, 0x37f); (0x3f5, 0x3f5, 1, 0x395);
   (0x3f8, 0x3f8, 1, 0x3f7); (0x3fb, 0x3fb, 1, 0x3fa); (0x430, 0x44f, 1, 0x410); (0x450, 0x45f, 1, 0x400);
   (0x461, 0x481, 2, 0x460); (0x48b, 0x4bf, 2, 0x48a); (0x4c2, 0x4ce, 2, 0x4c1); (0x4cf, 0x4cf, 1, 0x4c0);
   (0x4d1, 0x52f, 2, 0x4d0); (0x561, 0x586, 1, 0x531); (0x10d0, 0x10fa, 1, 0x1c90); (0x10fd, 0x10ff, 1, 0x1cbd);
   (0x13f8, 0x13fd, 1, 0x13f0); (0x1c80, 0x1c80, 1, 0x412); (0x1c81, 0x1c81, 1, 0x414); (0x1c82, 0x1c82, 1, 0x41e);
   (0x1c83, 0x1c84, 1, 0x421); (0x1c85, 0x1c85, 1, 0x422); (0x1c86, 0x1c86, 1, 0x42a); (0x1c87, 0x1c87, 1, 0x462);
   (0x1c88, 0x1c88, 1, 0xa64a); (0x1d79, 0x1d79, 1, 0xa77d); (0x1d7d, 0x1d7d, 1, 0x2c63); (0x1d8e, 0x1d8e, 1, 0xa7c6);
   (0x1e01, 0x1e95, 2, 0x1e00); (0x1e9b, 0x1e9b, 1, 0x1e60); (0x1ea1, 0x1eff, 2, 0x1ea0); (0x1f00, 0x1f07, 1, 0x1f08);
   (0x1f10, 0x1f15, 1, 0x1f18); (0x1f20, 0x1f27, 1, 0x1f28); (0x1f30, 0x1f37, 1, 0x1f38); (0x1f40, 0x1f45, 1, 0x1f48);
   (0x1f51, 0x1f57, 2, 0x1f59); (0x1f60, 0x1f67, 1, 0x1f68); (0x1f70, 0x1f71, 1, 0x1fba); (0x1f72, 0x1f75, 1, 0x1fc8);
   (0x1f76, 0x1f77, 1, 0x1fda); (0x1f78, 0x1f79, 1, 0x1ff8); (0x1f7a, 0x1f7b, 1, 0x1fea); (0x1f7c, 0x1f7d, 1, 0x1ffa);
   (0x1fb0, 0x1fb1, 1, 0x1fb8); (0x1fbe, 0x1fbe, 1, 0x399); (0x1fd0, 0x1fd1, 1, 0x1fd8); (0x1fe0, 0x1fe1, 1, 0x1fe8);
   (0x1fe5, 0x1fe5, 1, 0x1fec); (0x214e, 0x214e, 1, 0x2132); (0x2170, 0x217f, 1, 0x2160); (0x2184, 0x2184, 1, 0x2183);
   (0x24d0, 0x24e9, 1, 0x24b6); (0x2c30, 0x2c5f, 1, 0x2c00); (0x2c61, 0x2c61, 1, 0x2c60); (0x2c65, 0x2c65, 1, 0x23a);
   (0x2c66, 0x2c66, 1, 0x23e); (0x2c68, 0x2c6c, 2, 0x2c67); (0x2c73, 0x2c73, 1, 0x2c72); (0x2c76, 0x2c76, 1, 0x2c75);
   (0x2c81, 0x2ce3, 2, 0x2c80); (0x2cec, 0x2cee, 2, 0x2ceb); (0x2cf3, 0x2cf3, 1, 0x2cf2); (0x2d00, 0x2d25, 1, 0x10a0);
   (0x2d27, 0x2d27, 1, 0x10c7); (0x2d2d, 0x2d2d, 1, 0x10cd); (0xa641, 0xa66d, 2, 0xa640); (0xa681, 0xa69b, 2, 0xa680);
   (0xa723, 0xa72f, 2, 0xa722); (0xa733, 0xa76f, 2, 0xa732); (0xa77a, 0xa77c, 2, 0xa779); (0xa77f, 0xa787, 2, 0xa77e);
   (0xa78c, 0xa78c, 1, 0xa78b); (0xa791, 0xa793, 2, 0xa790); (0xa794, 0xa794, 1, 0xa7c4); (0xa797, 0xa7a9, 2, 0xa796);
   (0xa7b5, 0xa7c3, 2, 0xa7b4); (0xa7c8, 0xa7ca, 2, 0xa7c7); (0xa7d1, 0xa7d1, 1, 0xa7d0); (0xa7d7, 0xa7d9, 2, 0xa7d6);
   (0xa7f6, 0xa7f6, 1, 0xa7f5); (0xab53, 0xab53, 1, 0xa7b3); (0xab70, 0xabbf, 1, 0x13a0); (0xff41, 0xff5a, 1, 0xff21);
   (0x10428, 0x1044f, 1, 0x10400); (0x104d8, 0x104fb, 1, 0x104b0); (0x10597, 0x105a1, 1, 0x10570); (0x105a3, 0x105b1, 1, 0x1057c);
   (0x105b3, 0x105b9, 1, 0x1058c); (0x105bb, 0x105bc, 1, 0x10594); (0x10cc0, 0x10cf2, 1, 0x10c80); (0x118c0, 0x118df, 1, 0x118a0);
   (0x16e60, 0x16e7f, 1, 0x16e40); (0x1e922, 0x1e943, 1, 0x1e900)]%N.

(** Code points whose uppercase form has several code points. *)
Definition upper_special : list (N * list N) :=
  [(0xdf, [0x53; 0x53]); (0x149, [0x2bc; 0x4e]); (0x1f0, [0x4a; 0x30c]);
   (0x390, [0x399; 0x308; 0x301]); (0x3b0, [0x3a5; 0x308; 0x301]); (0x587, [0x535; 0x552]);
   (0x1e96, [0x48; 0x331]); (0x1e97, [0x54; 0x308]); (0x1e98, [0x57; 0x30a]);
   (0x1e99, [0x59; 0x30a]); (0x1e9a, [0x41; 0x2be]); (0x1f50, [0x3a5; 0x313]);
   (0x1f52, [0x3a5; 0x313; 0x300]); (0x1f54, [0x3a5; 0x313; 0x301]); (0x1f56, [0x3a5; 0x313; 0x342]);
   (0x1f80, [0x1f08; 0x399]); (0x1f81, [0x1f09; 0x399]); (0x1f82, [0x1f0a; 0x399]);
   (0x1f83, [0x1f0b; 0x399]); (0x1f84, [0x1f0c; 0x399]); (0x1f85, [0x1f0d; 0x399]);
   (0x1f86, [0x1f0e; 0x399]); (0x1f87, [0x1f0f; 0x399]); (0x1f88, [0x1f08; 0x399]);
   (0x1f89, [0x1f09; 0x399]); (0x1f8a, [0x1f0a; 0x399]); (0x1f8b, [0x1f0b; 0x399]);
   (0x1f8c, [0x1f0c; 0x399]); (0x1f8d, [0x1f0d; 0x399]); (0x1f8e, [0x1f0e; 0x399]);
   (0x1f8f, [0x1f0f; 0x399]); (0x1f90, [0x1f28; 0x399]); (0x1f91, [0x1f29; 0x399]);
   (0x1f92, [0x1f2a; 0x399]); (0x1f93, [0x1f2b; 0x399]); (0x1f94, [0x1f2c; 0x399]);
   (0x1f95, [0x1f2d; 0x399]); (0x1f96, [0x1f2e; 0x399]); (0x1f97, [0x1f2f; 0x399]);
   (0x1f98, [0x1f28; 0x399]); (0x1f99, [0x1f29; 0x399]); (0x1f9a, [0x1f2a; 0x399]);
   (0x1f9b, [0x1f2b; 0x399]); (0x1f9c, [0x1f2c; 0x399]); (0x1f9d, [0x1f2d; 0x399]);
   (0x1f9e, [0x1f2e; 0x399]); (0x1f9f, [0x1f2f; 0x399]); (0x1fa0, [0x1f68; 0x399]);
   (0x1fa1, [0x1f69; 0x399]); (0x1fa2, [0x1f6a; 0x399]); (0x1fa3, [0x1f6b; 0x399]);
   (0x1fa4, [0x1f6c; 0x399]); (0x1fa5, [0x1f6d; 0x399]); (0x1fa6, [0x1f6e; 0x399]);
   (0x1fa7, [0x1f6f; 0x399]); (0x1fa8, [0x1f68; 0x399]); (0x1fa9, [0x1f69; 0x399]);
   (0x1faa, [0x1f6a; 0x399]); (0x1fab, [0x1f6b; 0x399]); (0x1fac, [0x1f6c; 0x399]);
   (0x1fad, [0x1f6d; 0x399]); (0x1fae, [0x1f6e; 0x399]); (0x1faf, [0x1f6f; 0x399]);
   (0x1fb2, [0x1fba; 0x399]); (0x1fb3, [0x391; 0x399]); (0x1fb4, [0x386; 0x399]);
   (0x1fb6, [0x391; 0x342]); (0x1fb7, [0x391; 0x342; 0x399]); (0x1fbc, [0x391; 0x399]);
   (0x1fc2, [0x1fca; 0x399]); (0x1fc3, [0x397; 0x399]); (0x1fc4, [0x389; 0x399]);
   (0x1fc6, [0x397; 0x342]); (0x1fc7, [0x397; 0x342; 0x399]); (0x1fcc, [0x397; 0x399]);
   (0x1fd2, [0x399; 0x308; 0x300]); (0x1fd3, [0x399; 0x308; 0x301]); (0x1fd6, [0x399; 0x342]);
   (0x1fd7, [0x399; 0x308; 0x342]); (0x1fe2, [0x3a5; 0x308; 0x300]); (0x1fe3, [0x3a5; 0x308; 0x301]);
   (0x1fe4, [0x3a1; 0x313]); (0x1fe6, [0x3a5; 0x342]); (0x1fe7, [0x3a5; 0x308; 0x342]);
   (0x1ff2, [0x1ffa; 0x399]); (0x1ff3, [0x3a9; 0x399]); (0x1ff4, [0x38f; 0x399]);
   (0x1ff6, [0x3a9; 0x342]); (0x1ff7, [0x3a9; 0x342; 0x399]); (0x1ffc, [0x3a9; 0x399]);
   (0xfb00, [0x46; 0x46]); (0xfb01, [0x46; 0x49]); (0xfb02, [0x46; 0x4c]);
   (0xfb03, [0x46; 0x46; 0x49]); (0xfb04, [0x46; 0x46; 0x4c]); (0xfb05, [0x53; 0x54]);
   (0xfb06, [0x53; 0x54]); (0xfb13, [0x544; 0x546]); (0xfb14, [0x544; 0x535]);
   (0xfb15, [0x544; 0x53b]); (0xfb16, [0x54e; 0x546]); (0xfb17, [0x544; 0x53d])]%N.

(** Simple lowercase mappings as [(first, last, stride, image of first)]. *)
Definition lower_table : list (N * N * N * N) :=
  [(0x41, 0x5a, 1, 0x61); (0xc0, 0xd6, 1, 0xe0); (0xd8, 0xde, 1, 0xf8); (0x100, 0x12e, 2, 0x101);
   (0x132, 0x136, 2, 0x133); (0x139, 0x147, 2, 0x13a); (0x14a, 0x176, 2, 0x14b); (0x178, 0x178, 1, 0xff);
   (0x179, 0x17d, 2, 0x17a); (0x181, 0x181, 1, 0x253); (0x182, 0x184, 2, 0x183); (0x186, 0x186, 1, 0x254);
   (0x187, 0x187, 1, 0x188); (0x189, 0x18a, 1, 0x256); (0x18b, 0x18b, 1, 0x18c); (0x18e, 0x18e, 1, 0x1dd);
   (0x18f, 0x18f, 1, 0x259); (0x190, 0x190, 1, 0x25b); (0x191, 0x191, 1, 0x192); (0x193, 0x193, 1, 0x260);
   (0x194, 0x194, 1, 0x263); (0x196, 0x196, 1, 0x269); (0x197, 0x197, 1, 0x268); (0x198, 0x198, 1, 0x199);
   (0x19c, 0x19c, 1, 0x26f); (0x19d, 0x19d, 1, 0x272); (0x19f, 0x19f, 1, 0x275); (0x1a0, 0x1a4, 2, 0x1a1);
   (0x1a6, 0x1a6, 1, 0x280); (0x1a7, 0x1a7, 1, 0x1a8); (0x1a9, 0x1a9, 1, 0x283); (0x1ac, 0x1ac, 1, 0x1ad);
   (0x1ae, 0x1ae, 1, 0x288); (0x1af, 0x1af, 1, 0x1b0); (0x1b1, 0x1b2, 1, 0x28a); (0x1b3, 0x1b5, 2, 0x1b4);
   (0x1b7, 0x1b7, 1, 0x292); (0x1b8, 0x1b8, 1, 0x1b9); (0x1bc, 0x1bc, 1, 0x1bd); (0x1c4, 0x1c4, 1, 0x1c6);
   (0x1c5, 0x1c5, 1, 0x1c6); (0x1c7, 0x1c7, 1, 0x1c9); (0x1c8, 0x1c8, 1, 0x1c9); (0x1ca, 0x1ca, 1, 0x1cc);
   (0x1cb, 0x1db, 2, 0x1cc); (0x1de, 0x1ee, 2, 0x1df); (0x1f1, 0x1f1, 1, 0x1f3); (0x1f2, 0x1f4, 2, 0x1f3);
   (0x1f6, 0x1f6, 1, 0x195); (0x1f7, 0x1f7, 1, 0x1bf); (0x1f8, 0x21e, 2, 0x1f9); (0x220, 0x220, 1, 0x19e);
   (0x222, 0x232, 2, 0x223); (0x23a, 0x23a, 1, 0x2c65); (0x23b, 0x23b, 1, 0x23c); (0x23d, 0x23d, 1, 0x19a);
   (0x23e, 0x23e, 1, 0x2c66); (0x241, 0x241, 1, 0x242); (0x243, 0x243, 1, 0x180); (0x244, 0x244, 1, 0x289);
   (0x245, 0x245, 1, 0x28c); (0x246, 0x24e, 2, 0x247); (0x370, 0x372, 2, 0x371); (0x376, 0x376, 1, 0x377);
   (0x37f, 0x37f, 1, 0x3f3); (0x386, 0x386, 1, 0x3ac); (0x388, 0x38a, 1, 0x3ad); (0x38c, 0x38c, 1, 0x3cc);
   (0x38e, 0x38f, 1, 0x3cd); (0x391, 0x3a1, 1, 0x3b1); (0x3a4, 0x3ab, 1, 0x3c4); (0x3cf, 0x3cf, 1, 0x3d7);
   (0x3d8, 0x3ee, 2, 0x3d9); (0x3f4, 0x3f4, 1, 0x3b8); (0x3f7, 0x3f7, 1, 0x3f8); (0x3f9, 0x3f9, 1, 0x3f2);
   (0x3fa, 0x3fa, 1, 0x3fb); (0x3fd, 0x3ff, 1, 0x37b); (0x400, 0x40f, 1, 0x450); (0x410, 0x42f, 1, 0x430);
   (0x460, 0x480, 2, 0x461); (0x48a, 0x4be, 2, 0x48b); (0x4c0, 0x4c0, 1, 0x4cf); (0x4c1, 0x4cd, 2, 0x4c2);
   (0x4d0, 0x52e, 2, 0x4d1); (0x531, 0x556, 1, 0x561); (0x10a0, 0x10c5, 1, 0x2d00); (0x10c7, 0x10c7, 1, 0x2d27);
   (0x10cd, 0x10cd, 1, 0x2d2d); (0x13a0, 0x13ef, 1, 0xab70); (0x13f0, 0x13f5, 1, 0x13f8); (0x1c90, 0x1cba, 1, 0x10d0);
   (0x1cbd, 0x1cbf, 1, 0x10fd); (0x1e00, 0x1e94, 2, 0x1e01); (0x1e9e, 0x1e9e, 1, 0xdf); (0x1ea0, 0x1efe, 2, 0x1ea1);
   (0x1f08, 0x1f0f, 1, 0x1f00); (0x1f18, 0x1f1d, 1, 0x1f10); (0x1f28, 0x1f2f, 1, 0x1f20); (0x1f38, 0x1f3f, 1, 0x1f30);
   (0x1f48, 0x1f4d, 1, 0x1f40); (0x1f59, 0x1f5f, 2, 0x1f51); (0x1f68, 0x1f6f, 1, 0x1f60); (0x1f88, 0x1f8f, 1, 0x1f80);
   (0x1f98, 0x1f9f, 1, 0x1f90); (0x1fa8, 0x1faf, 1, 0x1fa0); (0x1fb8, 0x1fb9, 1, 0x1fb0); (0x1fba, 0x1fbb, 1, 0x1f70);
   (0x1fbc, 0x1fbc, 1, 0x1fb3); (0x1fc8, 0x1fcb, 1, 0x1f72); (0x1fcc, 0x1fcc, 1, 0x1fc3); (0x1fd8, 0x1fd9, 1, 0x1fd0);
   (0x1fda, 0x1fdb, 1, 0x1f76); (0x1fe8, 0x1fe9, 1, 0x1fe0); (0x1fea, 0x1feb, 1, 0x1f7a); (0x1fec, 0x1fec, 1, 0x1fe5);
   (0x1ff8, 0x1ff9, 1, 0x1f78); (0x1ffa, 0x1ffb, 1, 0x1f7c); (0x1ffc, 0x1ffc, 1, 0x1ff3); (0x2126, 0x2126, 1, 0x3c9);
   (0x212a, 0x212a, 1, 0x6b); (0x212b, 0x212b, 1, 0xe5); (0x2132, 0x2132, 1, 0x214e); (0x2160, 0x216f, 1, 0x2170);
   (0x2183, 0x2183, 1, 0x2184); (0x24b6, 0x24cf, 1, 0x24d0); (0x2c00, 0x2c2f, 1, 0x2c30); (0x2c60, 0x2c60, 1, 0x2c61);
   (0x2c62, 0x2c62, 1, 0x26b); (0x2c63, 0x2c63, 1, 0x1d7d); (0x2c64, 0x2c64, 1, 0x27d); (0x2c67, 0x2c6b, 2, 0x2c68);
   (0x2c6d, 0x2c6d, 1, 0x251); (0x2c6e, 0x2c6e, 1, 0x271); (0x2c6f, 0x2c6f, 1, 0x250); (0x2c70, 0x2c70, 1, 0x252);
   (0x2c72, 0x2c72, 1, 0x2c73); (0x2c75, 0x2c75, 1, 0x2c76); (0x2c7e, 0x2c7f, 1, 0x23f); (0x2c80, 0x2ce2, 2, 0x2c81);
   (0x2ceb, 0x2ced, 2, 0x2cec); (0x2cf2, 0x2cf2, 1, 0x2cf3); (0xa640, 0xa66c, 2, 0xa641); (0xa680, 0xa69a, 2, 0xa681);
   (0xa722, 0xa72e, 2, 0xa723); (0xa732, 0xa76e, 2, 0xa733); (0xa779, 0xa77b, 2, 0xa77a); (0xa77d, 0xa77d, 1, 0x1d79);
   (0xa77e, 0xa786, 2, 0xa77f); (0xa78b, 0xa78b, 1, 0xa78c); (0xa78d, 0xa78d, 1, 0x265); (0xa790, 0xa792, 2, 0xa791);
   (0xa796, 0xa7a8, 2, 0xa797); (0xa7aa, 0xa7aa, 1, 0x266); (0xa7ab, 0xa7ab, 1, 0x25c); (0xa7ac, 0xa7ac, 1, 0x261);
   (0xa7ad, 0xa7ad, 1, 0x26c); (0xa7ae, 0xa7ae, 1, 0x26a); (0xa7b0, 0xa7b0, 1, 0x29e); (0xa7b1, 0xa7b1, 1, 0x287);
   (0xa7b2, 0xa7b2, 1, 0x29d); (0xa7b3, 0xa7b3, 1, 0xab53); (0xa7b4, 0xa7c2, 2, 0xa7b5); (0xa7c4, 0xa7c4, 1, 0xa794);
   (0xa7c5, 0xa7c5, 1, 0x282); (0xa7c6, 0xa7c6, 1, 0x1d8e); (0xa7c7, 0xa7c9, 2, 0xa7c8); (0xa7d0, 0xa7d0, 1, 0xa7d1);
   (0xa7d6, 0xa7d8, 2, 0xa7d7); (0xa7f5, 0xa7f5, 1, 0xa7f6); (0xff21, 0xff3a, 1, 0xff41); (0x10400, 0x10427, 1, 0x10428);
   (0x104b0, 0x104d3, 1, 0x104d8); (0x10570, 0x1057a, 1, 0x10597); (0x1057c, 0x1058a, 1, 0x105a3); (0x1058c, 0x10592, 1, 0x105b3);
   (0x10594, 0x10595, 1, 0x105bb); (0x10c80, 0x10cb2, 1, 0x10cc0); (0x118a0, 0x118bf, 1, 0x118c0); (0x16e40, 0x16e5f, 1, 0x16e60);
   (0x1e900, 0x1e921, 1, 0x1e922)]%N.

(** Code points whose lowercase form has several code points. *)
Definition lower_special : list (N * list N) :=
  [(0x130, [0x69; 0x307])]%N.

(** Membership in a table of inclusive ranges. *)
Definition in_ranges (t : list (N * N)) (c : N) : bool :=
  existsb (fun '(lo, hi) => (lo <=? c) && (c <=? hi)) t.

Definition isspace (c : N) : bool := in_ranges space_table c.
Definition char_isdigit (c : N) : bool := in_ranges digit_table c.
Definition is_cased (c : N) : bool := in_ranges cased_table c.
Definition is_case_ignorable (c : N) : bool := in_ranges case_ignorable_table c.

(** [Py_UNICODE_TODECIMAL]: the value of a decimal digit. *)
Definition to_decimal (c : N) : option N :=
  (fun '(lo, _) => (c - lo) mod 10)
    <$> find (fun '(lo, hi) => (lo <=? c) && (c <=? hi)) decimal_table.

(** The image of a code point under a table of simple case mappings. *)
Definition simple_map (t : list (N * N * N * N)) (c : N) : option N :=
  (fun '(lo, _, _, img) => img + (c - lo))
    <$> find (fun '(lo, hi, stride, _) =>
                (lo <=? c) && (c <=? hi) && ((c - lo) mod stride =? 0)) t.

Definition special_map (t : list (N * list N)) (c : N) : option (list N) :=
  snd <$> find (fun '(k, _) => k =? c) t.

(** The full case mapping of a code point: its special form, else its
    simple image, else itself. *)
Definition full_map (special : list (N * list N)) (simple : list (N * N * N * N))
    (c : N) : list N :=
  match special_map special c with
  | Some l => l
  | None => match simple_map simple c with Some u => [u] | None => [c] end
  end.

Definition to_upper_full : N -> list N := full_map upper_special upper_table.
Definition to_lower_full : N -> list N := full_map lower_special lower_table.

(** [str.isdigit]: non-empty and every character is a digit. *)
Definition isdigit (s : pystr) : bool :=
  match s with [] => false | _ => forallb char_isdigit s end.

(** [str.upper]: character by character, with the full case mapping. *)
Definition upper (s : pystr) : pystr := s ≫= to_upper_full.

(** The first character that is not case-ignorable, if any. *)
Definition first_not_ignorable (s : pystr) : option N :=
  find (fun c => negb (is_case_ignorable c)) s.

(** Whether a capital sigma stands in the Final_Sigma context, given the
    characters before it (nearest first) and after it. *)
Definition final_sigma (before after : pystr) : bool :=
  match first_not_ignorable before with
  | Some c =>
      is_cased c &&
      match first_not_ignorable after with
      | Some d => negb (is_cased d)
      | None => true
      end
  | None => false
  end.

(** Lowercasing [s], given the characters before it, nearest first. *)
Fixpoint lower_from (before s : pystr) : pystr :=
  match s with
  | [] => []
  | c :: rest =>
      (if c =? 0x3a3
       then [if final_sigma before rest then 0x3c2 else 0x3c3]
       else to_lower_full c) ++ lower_from (c :: before) rest
  end.

(** [str.lower]. *)
Definition lower (s : pystr) : pystr := lower_from [] s.

Fixpoint lstrip (s : pystr) : pystr :=
  match s with
  | c :: rest => if isspace c then lstrip rest else s
  | [] => []
  end.

Fixpoint rstrip (s : pystr) : pystr :=
  match s with
  | c :: rest =>
      match rstrip rest with
      | [] => if isspace c then [] else [c]
      | kept => c :: kept
      end
  | [] => []
  end.

(** [str.strip] without argument. *)
Definition strip (s : pystr) : pystr := rstrip (lstrip s).

End PyUnicode.

Import PyUnicode.

(** ** Python values and the built-in [int] *)

#[local] Unset Elimination Schemes.

(** The objects a sample record can hold.  A [dict] is kept by its [str]
    keys, the only ones the script looks up; [PyOther] is any other object,
    given by what [int] makes of it ([None] when [int] raises). *)
Inductive pyobj :=
  | PyNone
  | PyBool (b : bool)
  | PyInt (z : Z)
  | PyFloat (f : spec_float)
  | PyStr (s : pystr)
  | PyList (items : list pyobj)
  | PyDict (entries : gmap pystr pyobj)
  | PyOther (as_int : option Z).

#[local] Set Elimination Schemes.

(** [Py_ISSPACE], the whitespace of the C locale. *)
Definition c_isspace (c : N) : bool := (c =? 0x20) || ((0x9 <=? c) && (c <=? 0xd)).

(** The characters 0-9. *)
Definition is_ascii_digit (c : N) : bool := (0x30 <=? c) && (c <=? 0x39).

(** What [int] reads in place of a character: ASCII is kept, other
    whitespace becomes a space and other decimal digits their ASCII digit;
    anything else ([None]) makes the literal invalid. *)
Definition to_ascii (c : N) : option N :=
  if c <? 0x80 then Some c
  else if isspace c then Some 0x20
  else (fun d => 0x30 + d) <$> to_decimal c.

(** The longest prefix whose characters satisfy [p], and the rest. *)
Fixpoint span (p : N -> bool) (s : pystr) : pystr * pystr :=
  match s with
  | c :: rest => if p c then let '(a, b) := span p rest in (c :: a, b) else ([], s)
  | [] => ([], [])
  end.

(** No two underscores in a row. *)
Fixpoint no_double_underscore (s : pystr) : bool :=
  match s with
  | c :: rest =>
      negb ((c =? 0x5f) && bool_decide (head rest = Some 0x5f))
      && no_double_underscore rest
  | [] => true
  end.

(** Default of [sys.get_int_max_str_digits ()]. *)
Definition int_max_str_digits : nat := 4300.

(** [int (s)] for a [str], in base ten: optional surrounding whitespace, an
    optional sign, then digits that single underscores may separate.
    [None] is [ValueError]. *)
Definition int_of_str (s : pystr) : option Z :=
  ascii ← mapM to_ascii s;
  let t := snd (span c_isspace ascii) in
  let '(negative, t) :=
    match t with
    | c :: rest => if c =? 0x2b then (false, rest)
                   else if c =? 0x2d then (true, rest) else (false, t)
    | [] => (false, t)
    end in
  let '(body, trailing) := span (fun c => is_ascii_digit c || (c =? 0x5f)) t in
  let digits := filter (fun c => is_ascii_digit c = true) body in
  if bool_decide (body ≠ [] ∧ head body ≠ Some 0x5f ∧ last body ≠ Some 0x5f)
     && no_double_underscore body
     && bool_decide (length digits ≤ int_max_str_digits)%nat
     && forallb c_isspace trailing
  then
    let magnitude := fold_left (fun acc d => 10 * acc + Z.of_N (d - 0x30))%Z digits 0%Z in
    Some (if negative : bool then - magnitude else magnitude)%Z
  else None.

(** [int (x)] for a [float]: truncation towards zero; [None] is the
    [ValueError] of a NaN or the [OverflowError] of an infinity. *)
Definition int_of_float (f : spec_float) : option Z :=
  match f with
  | S754_zero _ => Some 0%Z
  | S754_finite negative m e =>
      let magnitude := Z.shiftl (Z.pos m) e in
      Some (if negative then - magnitude else magnitude)%Z
  | S754_infinity _ | S754_nan => None
  end.

(** The built-in [int] on one argument; [None] when it raises. *)
Definition py_int (x : pyobj) : option Z :=
  match x with
  | PyInt z => Some z
  | PyBool b => Some (if b then 1 else 0)%Z
  | PyFloat f => int_of_float f
  | PyStr s => int_of_str s
  | PyOther as_int => as_int
  | PyNone | PyList _ | PyDict _ => None
  end.

(** ** The helpers of the script *)

(** [value or ""], for a value that is a [str] or [None]. *)
Definition or_empty (value : option pystr) : pystr := default [] value.

(** Truth value of a [str]. *)
Definition truthy (s : pystr) : bool := bool_decide (s ≠ []).

(** Whether an allele is a single nucleotide (A, C, G, T). *)
Definition _is_snv_allele (allele : option pystr) : bool :=
  let a := upper (strip (or_empty allele)) in
  bool_decide (length a = 1%nat)
  && bool_decide (a ∈ [str "A"; str "C"; str "G"; str "T"]).

(** Whether a value is missing (empty, NA, NaN, None). *)
Definition _is_missing (value : option pystr) : bool :=
  let v := lower (strip (or_empty value)) in
  bool_decide (v ∈ [str ""; str "na"; str "n/a"; str "nan"; str "none"]).

(** The options of [parse_args] that [main] computes with (the four paths
    only name files). *)
Record Args := { assembly : pystr; max_ids : Z }.

(** ** Reading the wanted identifiers (lines 92-103) *)

(** What one [pickle.load] on the sample file gives: an object, or an error
    other than [EOFError]; the end of the list is the end of the file. *)
Inductive load_event :=
  | Loaded (obj : pyobj)
  | Corrupt.

(** A computation that returns or lets an exception escape. *)
Inductive outcome (A : Type) :=
  | Ok (a : A)
  | Raised.
Arguments Ok {A} a.
Arguments Raised {A}.

(** Lines 99-103: the identifier a record contributes, if any. *)
Definition record_id (obj : pyobj) : option Z :=
  match obj with
  | PyDict entries =>
      match entries !! str "ID" with
      | Some value => py_int value
      | None => None
      end
  | _ => None
  end.

(** One turn of the loop on a loaded record: [ids.add] when it has an
    identifier. *)
Definition add_record (obj : pyobj) (ids : gset Z) : gset Z :=
  match record_id obj with
  | Some i => {[i]} ∪ ids
  | None => ids
  end.

(** The [while] loop, started with the identifiers collected so far. *)
Fixpoint read_ids (max_ids : Z) (f : list load_event) (ids : gset Z)
    : outcome (gset Z) :=
  if (Z.of_nat (size ids) <? max_ids)%Z then
    match f with
    | [] => Ok ids
    | Loaded obj :: rest => read_ids max_ids rest (add_record obj ids)
    | Corrupt :: _ => Raised
    end
  else Ok ids.

(** ** Scanning the reference rows (lines 108-141) *)

(** A row as [csv.DictReader] yields it, by the columns the script reads.
    [None] is a column that the header lacks or that a short line leaves at
    [None]. *)
Record ReferenceRow := {
  VariationID : option pystr;
  Assembly : option pystr;
  Chromosome : option pystr;
  PositionVCF : option pystr;
  ReferenceAlleleVCF : option pystr;
  AlternateAlleleVCF : option pystr
}.

(** The tuple stored for a candidate: chromosome, position, reference and
    alternate allele. *)
Abbreviation coord := (pystr * pystr * pystr * pystr)%type.

(** Lines 116-119: [int (row ["VariationID"])], [None] when it raises. *)
Definition variation_id_of (row : ReferenceRow) : option Z :=
  match VariationID row with
  | Some s => py_int (PyStr s)
  | None => None
  end.

(** Lines 123-125: whether the assembly test skips the row. *)
Definition assembly_rejects (args : Args) (row : ReferenceRow) : bool :=
  let row_assembly := strip (or_empty (Assembly row)) in
  truthy (assembly args) && truthy row_assembly
  && bool_decide (row_assembly ≠ assembly args).

(** Line 139: the key string. *)
Definition coordinate_key (chrom pos ref alt : pystr) : pystr :=
  chrom ++ str "_" ++ pos ++ str "_" ++ ref ++ str "_" ++ alt.

(** Lines 127-140: the key and the tuple of a row, [None] when a test
    skips it. *)
Definition coordinate_filter (row : ReferenceRow) : option (pystr * coord) :=
  let chrom := strip (or_empty (Chromosome row)) in
  let pos := strip (or_empty (PositionVCF row)) in
  let ref := strip (or_empty (ReferenceAlleleVCF row)) in
  let alt := strip (or_empty (AlternateAlleleVCF row)) in
  if _is_missing (Some chrom) || _is_missing (Some pos)
     || _is_missing (Some ref) || _is_missing (Some alt) then None
  else if negb (isdigit pos) then None
  else if negb (_is_snv_allele (Some ref) && _is_snv_allele (Some alt)) then None
  else Some (coordinate_key chrom pos (upper ref) (upper alt),
             (chrom, pos, upper ref, upper alt)).

(** Lines 116-140: what a row registers, [None] when it is skipped. *)
Definition filter_row (ids : gset Z) (args : Args) (row : ReferenceRow)
    : option (Z * pystr * coord) :=
  match variation_id_of row with
  | None => None
  | Some variation_id =>
      if bool_decide (variation_id ∉ ids) then None
      else if assembly_rejects args row then None
      else (fun kv => (variation_id, kv.1, kv.2)) <$> coordinate_filter row
  end.

(** The variables of the scan. *)
Record scan_state := {
  candidates : gmap Z (gmap pystr coord);
  seen_rows : nat;
  kept_rows : nat
}.

(** [candidates.setdefault (variation_id, {}) [key] = value] *)
Definition register (variation_id : Z) (key : pystr) (value : coord)
    (c : gmap Z (gmap pystr coord)) : gmap Z (gmap pystr coord) :=
  <[variation_id := <[key := value]> (default ∅ (c !! variation_id))]> c.

(** The body of the [for] loop over the reader. *)
Definition scan_row (ids : gset Z) (args : Args) (st : scan_state)
    (row : ReferenceRow) : scan_state :=
  match filter_row ids args row with
  | None =>
      {| candidates := candidates st;
         seen_rows := S (seen_rows st);
         kept_rows := kept_rows st |}
  | Some (variation_id, key, value) =>
      {| candidates := register variation_id key value (candidates st);
         seen_rows := S (seen_rows st);
         kept_rows := S (kept_rows st) |}
  end.

(** The [for] loop over the reader, from the empty state. *)
Definition scan (ids : gset Z) (args : Args) (rows : list ReferenceRow)
    : scan_state :=
  fold_left (scan_row ids args) rows
    {| candidates := ∅; seen_rows := 0; kept_rows := 0 |}.

(** ** Writing the two tables (lines 143-171) *)

(** Order of [str] values: by code point, a proper prefix first. *)
Fixpoint str_leb (a b : pystr) : bool :=
  match a, b with
  | [], _ => true
  | _ :: _, [] => false
  | x :: a', y :: b' => (x <? y) || ((x =? y) && str_leb a' b')
  end.

(** [sorted] on the items of a [dict]: the keys of a [dict] differ, so the
    comparison of two [(key, value)] tuples is decided by their keys. *)
Definition by_id {V} (a b : Z * V) : Prop := (a.1 ≤ b.1)%Z.
Definition by_key {V} (a b : pystr * V) : Prop := str_leb a.1 b.1 = true.

#[global] Instance by_id_dec {V} : RelDecision (@by_id V).
Proof. intros a b. unfold by_id. apply _. Defined.
#[global] Instance by_key_dec {V} : RelDecision (@by_key V).
Proof. intros a b. unfold by_key. apply _. Defined.

Definition sorted_by_id {V} (items : list (Z * V)) : list (Z * V) :=
  merge_sort by_id items.
Definition sorted_by_key {V} (items : list (pystr * V)) : list (pystr * V) :=
  merge_sort by_key items.

(** A field handed to [csv.writer.writerow]. *)
Inductive cell :=
  | CInt (z : Z)
  | CStr (s : pystr).

(** The header of the unique table; the ambiguous table adds a column. *)
Definition header : list cell :=
  CStr <$> [str "pickle_ID"; str "Chromosome"; str "PositionVCF";
            str "ReferenceAlleleVCF"; str "AlternateAlleleVCF";
            str "chr_pos_ref_alt"].

(** The rows written to [out] and to [amb] so far, and the two counters. *)
Record write_state := {
  out : list (list cell);
  amb : list (list cell);
  unique_written : nat;
  ambiguous_written : nat
}.

(** The row written for the only candidate of an identifier (line 166). *)
Definition unique_row (variation_id : Z) (item : pystr * coord) : list cell :=
  let '(only_key, (chrom, pos, ref, alt)) := item in
  [CInt variation_id; CStr chrom; CStr pos; CStr ref; CStr alt; CStr only_key].

(** The row written for one of [n] candidates of an identifier (line 170). *)
Definition ambiguous_row (variation_id : Z) (n : nat) (item : pystr * coord)
    : list cell :=
  let '(key, (chrom, pos, ref, alt)) := item in
  [CInt variation_id; CStr chrom; CStr pos; CStr ref; CStr alt; CStr key;
   CInt (Z.of_nat n)].

Section write.
(** The order in which [candidates.items ()] and [key_map.items ()]
    enumerate a dictionary. *)
Variable candidate_items :
  gmap Z (gmap pystr coord) -> list (Z * gmap pystr coord).
Variable key_items : gmap pystr coord -> list (pystr * coord).

(** The body of the inner [for] loop (lines 169-171). *)
Definition write_ambiguous (variation_id : Z) (key_map : gmap pystr coord)
    (st : write_state) (item : pystr * coord) : write_state :=
  {| out := out st;
     amb := amb st ++ [ambiguous_row variation_id (size key_map) item];
     unique_written := unique_written st;
     ambiguous_written := S (ambiguous_written st) |}.

(** The body of the outer [for] loop (lines 164-171). *)
Definition write_mapping (st : write_state) (item : Z * gmap pystr coord)
    : write_state :=
  let '(variation_id, key_map) := item in
  if bool_decide (size key_map = 1%nat) then
    match key_items key_map with
    | only :: _ =>
        {| out := out st ++ [unique_row variation_id only];
           amb := amb st;
           unique_written := S (unique_written st);
           ambiguous_written := ambiguous_written st |}
    | [] => st
    end
  else
    fold_left (write_ambiguous variation_id key_map)
      (sorted_by_key (key_items key_map)) st.

(** The two headers, then the outer [for] loop over the sorted items. *)
Definition write_tables_in (c : gmap Z (gmap pystr coord)) : write_state :=
  fold_left write_mapping (sorted_by_id (candidate_items c))
    {| out := [header];
       amb := [header ++ [CStr (str "n_candidates")]];
       unique_written := 0;
       ambiguous_written := 0 |}.
End write.

(** The tables, with the dictionaries enumerated as [map_to_list] does; any
    other enumeration gives the same tables ([write_tables_any_order]). *)
Definition write_tables (c : gmap Z (gmap pystr coord)) : write_state :=
  write_tables_in map_to_list map_to_list c.

(** ** The whole run *)

(** What [main] leaves behind: the identifiers collected, the counters of
    the scan with the candidates, and the tables with their counters. *)
Record report := {
  ids : gset Z;
  scanned : scan_state;
  written : write_state
}.

(** [main], on the options, the sample file and the rows of the reference
    file. *)
Definition main (args : Args) (f : list load_event) (rows : list ReferenceRow)
    : outcome report :=
  match read_ids (max_ids args) f ∅ with
  | Raised => Raised
  | Ok ids =>
      let st := scan ids args rows in
      Ok {| ids := ids; scanned := st; written := write_tables (candidates st) |}
  end.

(** ** Sample inputs *)

(** A row with all six columns. *)
Definition sample_row (id asm chrom pos ref alt : pystr) : ReferenceRow :=
  {| VariationID := Some id; Assembly := Some asm; Chromosome := Some chrom;
     PositionVCF := Some pos; ReferenceAlleleVCF := Some ref;
     AlternateAlleleVCF := Some alt |}.

(** The defaults of [parse_args]. *)
Definition default_args : Args := {| assembly := str "GRCh38"; max_ids := 50000 |}.

(** A record with an integer "ID". *)
Definition sample_record (id : Z) : load_event :=
  Loaded (PyDict {[ str "ID" := PyInt id ]}).

(** A sample file: identifiers 10, 20 and 30, among records without a usable
    "ID". *)
Definition sample_stream : list load_event :=
  [sample_record 10; Loaded PyNone; sample_record 20;
   Loaded (PyDict {[ str "ID" := PyStr (str "n/a") ]});
   Loaded (PyDict {[ str "name" := PyStr (str "x") ]});
   sample_record 30; sample_record 10].

(** Reference rows: two distinct coordinates for 20 (a third row is of
    another assembly), one coordinate for 10, seen twice, and none for 30. *)
Definition sample_rows : list ReferenceRow :=
  [sample_row (str "20") (str "GRCh38") (str "2") (str "200") (str "c") (str "T");
   sample_row (str "10") (str "GRCh38") (str "1") (str "100") (str "A") (str "g");
   sample_row (str "20") (str "GRCh37") (str "2") (str "150") (str "C") (str "T");
   sample_row (str "20") (str "") (str "2") (str "100") (str "C") (str "T");
   sample_row (str "10") (str "GRCh38") (str " 1") (str "100 ") (str "a") (str "G");
   sample_row (str "30") (str "GRCh38") (str "3") (str "300") (str "AG") (str "T");
   sample_row (str "40") (str "GRCh38") (str "4") (str "400") (str "A") (str "T");
   sample_row (str "x") (str "GRCh38") (str "4") (str "400") (str "A") (str "T")].

(** A row whose position is written with the Arabic-Indic digits one, two
    and three, and the only identifier it is wanted for. *)
Definition arabic_position_row : ReferenceRow :=
  sample_row (str "10") (str "GRCh38") (str "1") [0x661; 0x662; 0x663]
    (str "A") (str "G").

(** The sample rows in another order. *)
Definition sample_rows_reordered : list ReferenceRow := reverse sample_rows.

(** ** Reading the tables back *)

(** [a < b] on [str] values. *)
Definition str_ltb (a b : pystr) : bool := negb (str_leb b a).

(** The identifier, the key string and the candidate count of a written
    row; the header row has no identifier. *)
Definition row_id (r : list cell) : option Z :=
  match r with
  | CInt z :: _ => Some z
  | _ => None
  end.

Definition row_key (r : list cell) : option pystr :=
  match r !! 5%nat with
  | Some (CStr k) => Some k
  | _ => None
  end.

Definition row_n_candidates (r : list cell) : option Z :=
  match r !! 6%nat with
  | Some (CInt n) => Some n
  | _ => None
  end.

(** How many rows of a table carry an identifier. *)
Definition count_id (id : Z) (t : list (list cell)) : nat :=
  length (filter (fun r => row_id r = Some id) t).

(** Row order of the unique table, and of the ambiguous table: by
    identifier, then by key string. *)
Definition unique_before (r1 r2 : list cell) : Prop :=
  ∃ i1 i2, row_id r1 = Some i1 ∧ row_id r2 = Some i2 ∧ (i1 < i2)%Z.

Definition ambiguous_before (r1 r2 : list cell) : Prop :=
  ∃ i1 k1 i2 k2,
    row_id r1 = Some i1 ∧ row_key r1 = Some k1 ∧
    row_id r2 = Some i2 ∧ row_key r2 = Some k2 ∧
    ((i1 < i2)%Z ∨ (i1 = i2 ∧ str_ltb k1 k2 = true)).

(** The key string of a stored tuple. *)
Definition key_of (v : coord) : pystr :=
  let '(chrom, pos, ref, alt) := v in coordinate_key chrom pos ref alt.

(** The distinct coordinates that the rows of an identifier leave after the
    filters. *)
Definition surviving (ids : gset Z) (args : Args) (rows : list ReferenceRow)
    (id : Z) : gset coord :=
  list_to_set
    (omap (fun row =>
             match filter_row ids args row with
             | Some (i, _, v) => if bool_decide (i = id) then Some v else None
             | None => None
             end) rows).

(** The tuple held for an identifier under a key string. *)
Definition candidate (c : gmap Z (gmap pystr coord)) (id : Z) (key : pystr)
    : option coord :=
  match c !! id with
  | Some key_map => key_map !! key
  | None => None
  end.

(** The rows one identifier adds to each table. *)
Definition unique_part (item : Z * gmap pystr coord) : list (list cell) :=
  if bool_decide (size item.2 = 1%nat)
  then unique_row item.1 <$> take 1 (map_to_list item.2)
  else [].

Definition ambiguous_part (item : Z * gmap pystr coord) : list (list cell) :=
  if bool_decide (size item.2 = 1%nat) then []
  else ambiguous_row item.1 (size item.2) <$> sorted_by_key (map_to_list item.2).

(** The number of (identifier, key) pairs held. *)
Definition total_candidates (c : gmap Z (gmap pystr coord)) : nat :=
  sum_list_with (fun item => size item.2) (map_to_list c).

(** The letters of a single-nucleotide allele, in either case. *)
Definition nucleotides : list pystr :=
  [str "A"; str "C"; str "G"; str "T"; str "a"; str "c"; str "g"; str "t"].

(** What the filters guarantee of a stored tuple. *)
Definition valid_coord (v : coord) : Prop :=
  let '(_, pos, ref, alt) := v in
  isdigit pos = true
  ∧ ref ∈ [str "A"; str "C"; str "G"; str "T"]
  ∧ alt ∈ [str "A"; str "C"; str "G"; str "T"].

(** The tests a reference row passes to be kept, as the specification lists
    them: assembly, missing fields, position, alleles. *)
Definition passes_filters (args : Args) (row : ReferenceRow) : Prop :=
  let row_assembly := strip (or_empty (Assembly row)) in
  let chrom := strip (or_empty (Chromosome row)) in
  let pos := strip (or_empty (PositionVCF row)) in
  let ref := strip (or_empty (ReferenceAlleleVCF row)) in
  let alt := strip (or_empty (AlternateAlleleVCF row)) in
  (assembly args = [] ∨ row_assembly = [] ∨ row_assembly = assembly args)
  ∧ _is_missing (Some chrom) = false ∧ _is_missing (Some pos) = false
  ∧ _is_missing (Some ref) = false ∧ _is_missing (Some alt) = false
  ∧ isdigit pos = true
  ∧ ref ∈ nucleotides ∧ alt ∈ nucleotides.

(** The key string and the tuple that a row yields. *)
Definition row_coordinate (row : ReferenceRow) : pystr * coord :=
  let chrom := strip (or_empty (Chromosome row)) in
  let pos := strip (or_empty (PositionVCF row)) in
  let ref := upper (strip (or_empty (ReferenceAlleleVCF row))) in
  let alt := upper (strip (or_empty (AlternateAlleleVCF row))) in
  (chrom ++ str "_" ++ pos ++ str "_" ++ ref ++ str "_" ++ alt,
   (chrom, pos, ref, alt)).

(** * Properties *)

(** ** The [str] methods *)

Lemma lstrip_head s c r : lstrip s = c :: r -> isspace c = false.
Proof.
  induction s as [|d s IH]; simpl; [done|].
  destruct (isspace d) eqn:Hd; [done|]. intros [= -> _]. done.
Qed.

Lemma lstrip_fixed c r : isspace c = false -> lstrip (c :: r) = c :: r.
Proof. intros H. simpl. by rewrite H. Qed.

Lemma rstrip_fixed c r : isspace c = false -> ∃ k, rstrip (c :: r) = c :: k.
Proof. intros H. simpl. rewrite H. destruct (rstrip r); eauto. Qed.

Lemma rstrip_idem s : rstrip (rstrip s) = rstrip s.
Proof.
  induction s as [|c s IH]; [done|]. simpl.
  destruct (rstrip s) as [|d k] eqn:Hk.
  - destruct (isspace c) eqn:Hc; [done|]. simpl. by rewrite Hc.
  - simpl in IH |- *. destruct (rstrip k) as [|e k'] eqn:Hk'.
    + destruct (isspace d); [done|]. by rewrite IH.
    + by rewrite IH.
Qed.

Lemma strip_idem s : strip (strip s) = strip s.
Proof.
  unfold strip. destruct (lstrip s) as [|c r] eqn:Hs; [done|].
  apply lstrip_head in Hs. destruct (rstrip_fixed c r Hs) as [k Hk].
  rewrite Hk, (lstrip_fixed _ _ Hs), <- Hk. apply rstrip_idem.
Qed.

Lemma find_elem {A} (p : A -> bool) (l : list A) x :
  find p l = Some x -> x ∈ l ∧ p x = true.
Proof. intros H. apply find_some in H as [H1 H2]. by rewrite list_elem_of_In. Qed.

Lemma forallb_elem {A} (p : A -> bool) (l : list A) x :
  forallb p l = true -> x ∈ l -> p x = true.
Proof. rewrite forallb_forall. intros H Hx. apply H. by rewrite <- list_elem_of_In. Qed.

(** A special uppercase form has at least two code points. *)
Lemma upper_special_long c l :
  special_map upper_special c = Some l -> (2 ≤ length l)%nat.
Proof.
  unfold special_map. destruct (find _ _) as [[k l']|] eqn:Hf; [|done].
  intros [= <-]. apply find_elem in Hf as [Hin _].
  assert (forallb (fun e => 2 <=? length e.2)%nat upper_special = true) as Hall
    by (vm_compute; reflexivity).
  apply (forallb_elem _ _ _ Hall) in Hin. simpl in Hin. by apply Nat.leb_le.
Qed.

(** Only the letters a-z have a simple uppercase form among A, C, G, T. *)
Lemma upper_table_acgt c u :
  simple_map upper_table c = Some u -> u ∈ [0x41; 0x43; 0x47; 0x54] ->
  c = u + 0x20.
Proof.
  unfold simple_map. destruct (find _ _) as [[[[lo hi] stride] img]|] eqn:Hf; [|done].
  intros [= <-] Hu. apply find_elem in Hf as [Hin Hc].
  assert (forallb (fun '(lo, hi, _, img) =>
            forallb (fun x => negb ((img <=? x) && (x <=? img + (hi - lo)))
                              || ((lo =? 0x61) && (img =? 0x41)))
                    [0x41; 0x43; 0x47; 0x54]) upper_table = true) as Hall
    by (vm_compute; reflexivity).
  apply (forallb_elem _ _ _ Hall) in Hin.
  apply (forallb_elem _ _ _ Hin) in Hu.
  apply andb_prop in Hc as [Hc _]. apply andb_prop in Hc as [Hlo Hhi].
  apply N.leb_le in Hlo, Hhi.
  apply orb_prop in Hu as [Hu|Hu].
  - apply negb_true_iff, andb_false_iff in Hu as [Hu|Hu];
      apply N.leb_gt in Hu; lia.
  - apply andb_prop in Hu as [->%N.eqb_eq ->%N.eqb_eq]. lia.
Qed.

Lemma to_upper_full_nonempty c : to_upper_full c ≠ [].
Proof.
  unfold to_upper_full, full_map.
  destruct (special_map upper_special c) as [l|] eqn:Hs.
  - apply upper_special_long in Hs. destruct l; simpl in Hs; [lia|done].
  - by destruct (simple_map upper_table c).
Qed.

Lemma to_upper_full_acgt c x :
  to_upper_full c = [x] -> x ∈ [0x41; 0x43; 0x47; 0x54] -> c = x ∨ c = x + 0x20.
Proof.
  unfold to_upper_full, full_map.
  destruct (special_map upper_special c) as [l|] eqn:Hs.
  - apply upper_special_long in Hs. intros ->. simpl in Hs. lia.
  - destruct (simple_map upper_table c) as [u|] eqn:Hu; intros [= <-]; [|by left].
    right. by apply upper_table_acgt.
Qed.

Lemma upper_nil s : upper s = [] -> s = [].
Proof.
  destruct s as [|c r]; [done|]. unfold upper. simpl. intros H.
  apply app_eq_nil in H as [H _]. by apply to_upper_full_nonempty in H.
Qed.

Lemma upper_single s x :
  upper s = [x] -> x ∈ [0x41; 0x43; 0x47; 0x54] -> s = [x] ∨ s = [x + 0x20].
Proof.
  destruct s as [|c r]; [done|]. unfold upper. simpl. intros H Hx.
  pose proof (to_upper_full_nonempty c) as Hne.
  destruct (to_upper_full c) as [|y [|z l]] eqn:Hc; [done| |done].
  injection H as -> Hr. apply upper_nil in Hr as ->.
  destruct (to_upper_full_acgt c x Hc Hx) as [->| ->]; auto.
Qed.

(** Membership in an explicit list, as a hypothesis and as a goal. *)
Ltac cases_of H :=
  repeat (apply elem_of_cons in H as [H|H]); [..|by apply elem_of_nil in H].
Ltac one_of := rewrite !elem_of_cons; auto 12.
Ltac eval_one_of :=
  match goal with
  | |- ?x ∈ ?l =>
      let x' := eval vm_compute in x in
      let l' := eval vm_compute in l in
      change (x' ∈ l'); one_of
  end.

(** [_is_snv_allele] holds of exactly the strings that [strip] leaves as one
    letter among A, C, G, T, in either case. *)
Lemma is_snv_allele_spec s : _is_snv_allele (Some s) = true ↔ strip s ∈ nucleotides.
Proof.
  unfold _is_snv_allele. simpl. split.
  - intros [_ Hin%bool_decide_eq_true_1]%andb_prop.
    assert (∃ x, upper (strip s) = [x] ∧ x ∈ [0x41; 0x43; 0x47; 0x54]) as (x & Hx & Hm).
    { change [str "A"; str "C"; str "G"; str "T"]
        with [[0x41]; [0x43]; [0x47]; [0x54]] in Hin.
      cases_of Hin; rewrite Hin; eexists; (split; [done|one_of]). }
    change nucleotides with
      [[0x41]; [0x43]; [0x47]; [0x54]; [0x61]; [0x63]; [0x67]; [0x74]].
    destruct (upper_single _ _ Hx Hm) as [->| ->]; cases_of Hm; subst x; one_of.
  - intros Hin. unfold nucleotides in Hin.
    cases_of Hin; rewrite Hin; by vm_compute.
Qed.

(** The uppercase form of such a string is one of the four letters. *)
Lemma upper_nucleotide s :
  s ∈ nucleotides -> upper s ∈ [str "A"; str "C"; str "G"; str "T"].
Proof.
  unfold nucleotides. intros Hin.
  cases_of Hin; subst s; eval_one_of.
Qed.

(** ** The key string determines the tuple *)

Lemma separator_unique (P : N -> Prop) sep a1 b1 a2 b2 :
  ¬ P sep -> Forall P b1 -> Forall P b2 ->
  a1 ++ sep :: b1 = a2 ++ sep :: b2 -> a1 = a2 ∧ b1 = b2.
Proof.
  intros Hsep H1 H2. revert a2.
  induction a1 as [|x a1 IH]; intros [|y a2]; simpl; intros Heq.
  - by injection Heq.
  - injection Heq as -> ->. apply Forall_app in H1 as [_ H1].
    by apply Forall_cons in H1 as [? _].
  - injection Heq as -> <-. apply Forall_app in H2 as [_ H2].
    by apply Forall_cons in H2 as [? _].
  - injection Heq as -> Heq. by destruct (IH _ Heq) as [-> ->].
Qed.

Lemma isdigit_Forall s : isdigit s = true -> Forall (fun c => char_isdigit c = true) s.
Proof.
  destruct s as [|c r]; [done|]. unfold isdigit. intros H.
  apply Forall_forall. intros x Hx. by apply (forallb_elem _ _ _ H).
Qed.

Lemma key_of_inj v1 v2 :
  valid_coord v1 -> valid_coord v2 -> key_of v1 = key_of v2 -> v1 = v2.
Proof.
  destruct v1 as [[[c1 p1] r1] a1], v2 as [[[c2 p2] r2] a2].
  intros (Hp1 & Hr1 & Ha1) (Hp2 & Hr2 & Ha2). simpl. unfold coordinate_key.
  change (str "_") with [0x5f].
  change [str "A"; str "C"; str "G"; str "T"]
    with [[0x41]; [0x43]; [0x47]; [0x54]] in Hr1, Hr2, Ha1, Ha2.
  assert (∀ c p r a : pystr, c ++ [0x5f] ++ p ++ [0x5f] ++ r ++ [0x5f] ++ a
            = (c ++ 0x5f :: p) ++ ([0x5f] ++ r ++ [0x5f] ++ a)) as Hassoc.
  { intros. by rewrite <- !app_assoc. }
  rewrite !Hassoc. intros Heq.
  assert (length r1 = 1 ∧ length r2 = 1 ∧ length a1 = 1 ∧ length a2 = 1)%nat
    as (L1 & L2 & L3 & L4).
  { cases_of Hr1; cases_of Hr2; cases_of Ha1; cases_of Ha2; by subst. }
  apply app_inj_2 in Heq as [Hhead Htail].
  2:{ rewrite !length_app. simpl. lia. }
  apply (separator_unique (fun c => char_isdigit c = true)) in Hhead
    as [-> ->]; [|done|by apply isdigit_Forall..].
  destruct r1 as [|x1 [|]], r2 as [|x2 [|]], a1 as [|y1 [|]], a2 as [|y2 [|]];
    try done.
  by simplify_eq.
Qed.

(** ** What a kept row has passed *)

Lemma coordinate_filter_inv row key v :
  coordinate_filter row = Some (key, v) ->
  let chrom := strip (or_empty (Chromosome row)) in
  let pos := strip (or_empty (PositionVCF row)) in
  let ref := strip (or_empty (ReferenceAlleleVCF row)) in
  let alt := strip (or_empty (AlternateAlleleVCF row)) in
  v = (chrom, pos, upper ref, upper alt) ∧ key = key_of v
  ∧ _is_missing (Some chrom) = false ∧ _is_missing (Some pos) = false
  ∧ _is_missing (Some ref) = false ∧ _is_missing (Some alt) = false
  ∧ isdigit pos = true ∧ ref ∈ nucleotides ∧ alt ∈ nucleotides.
Proof.
  intros H. cbv zeta. unfold coordinate_filter in H.
  set (chrom := strip (or_empty (Chromosome row))) in *.
  set (pos := strip (or_empty (PositionVCF row))) in *.
  set (ref := strip (or_empty (ReferenceAlleleVCF row))) in *.
  set (alt := strip (or_empty (AlternateAlleleVCF row))) in *.
  destruct (_is_missing (Some chrom)) eqn:M1; [done|].
  destruct (_is_missing (Some pos)) eqn:M2; [done|].
  destruct (_is_missing (Some ref)) eqn:M3; [done|].
  destruct (_is_missing (Some alt)) eqn:M4; [done|]. simpl in H.
  destruct (isdigit pos) eqn:D; [|done]. simpl in H.
  destruct (_is_snv_allele (Some ref)) eqn:S1; [|done].
  destruct (_is_snv_allele (Some alt)) eqn:S2; [|done]. simpl in H.
  injection H as <- <-.
  apply is_snv_allele_spec in S1, S2.
  unfold ref in S1 at 1. unfold alt in S2 at 1. rewrite strip_idem in S1, S2.
  done.
Qed.

Lemma coordinate_filter_valid row key v :
  coordinate_filter row = Some (key, v) -> valid_coord v ∧ key = key_of v.
Proof.
  intros H. apply coordinate_filter_inv in H
    as (-> & -> & _ & _ & _ & _ & D & R & A).
  split; [|done]. repeat split; [done|by apply upper_nucleotide..].
Qed.

Lemma filter_row_inv ids args row id key v :
  filter_row ids args row = Some (id, key, v) ->
  variation_id_of row = Some id ∧ id ∈ ids
  ∧ assembly_rejects args row = false ∧ coordinate_filter row = Some (key, v).
Proof.
  unfold filter_row. destruct (variation_id_of row) as [i|]; [|done].
  case_bool_decide as Hin; [done|].
  destruct (assembly_rejects args row); [done|].
  destruct (coordinate_filter row) as [[k w]|]; [|done]. simpl.
  by intros [= -> -> ->].
Qed.

Lemma filter_row_key_of ids args row id key v :
  filter_row ids args row = Some (id, key, v) -> valid_coord v ∧ key = key_of v.
Proof. intros (_ & _ & _ & H)%filter_row_inv. by apply (coordinate_filter_valid row). Qed.

(** Two kept rows with the same key string carry the same tuple. *)
Lemma filter_row_same_key ids args r1 r2 id1 id2 key v1 v2 :
  filter_row ids args r1 = Some (id1, key, v1) ->
  filter_row ids args r2 = Some (id2, key, v2) -> v1 = v2.
Proof.
  intros [V1 K1]%filter_row_key_of [V2 K2]%filter_row_key_of.
  apply key_of_inj; congruence.
Qed.

(** ** The scan *)

Lemma scan_snoc ids args rows row :
  scan ids args (rows ++ [row]) = scan_row ids args (scan ids args rows) row.
Proof. unfold scan. by rewrite fold_left_app. Qed.

Lemma candidate_register id key v c id' key' :
  candidate (register id key v c) id' key'
  = if decide (id = id' ∧ key = key') then Some v else candidate c id' key'.
Proof.
  unfold candidate, register. rewrite lookup_insert.
  destruct (decide (id = id')) as [<-|Hid].
  - rewrite lookup_insert. destruct (decide (key = key')) as [<-|Hkey].
    + by rewrite decide_True.
    + rewrite decide_False by tauto. destruct (c !! id); [done|].
      apply lookup_empty.
  - by rewrite decide_False by tauto.
Qed.

(** The candidates held after a scan are exactly what the kept rows
    register. *)
Lemma scan_candidate ids args rows id key v :
  candidate (candidates (scan ids args rows)) id key = Some v
  ↔ ∃ row, row ∈ rows ∧ filter_row ids args row = Some (id, key, v).
Proof.
  revert id key v. induction rows as [|row rows IH] using rev_ind; intros id key v.
  - split; [done|]. intros (row & Hin & _). by apply elem_of_nil in Hin.
  - rewrite scan_snoc. unfold scan_row.
    destruct (filter_row ids args row) as [[[i k] w]|] eqn:Hrow; simpl.
    + rewrite candidate_register. destruct (decide (i = id ∧ k = key)) as [[-> ->]|Hne].
      * split.
        -- intros [= ->]. exists row. split; [|done].
           apply elem_of_app. right. by apply list_elem_of_singleton.
        -- intros (row' & _ & Hrow'). f_equal.
           by apply (filter_row_same_key ids args row row' id id key).
      * rewrite IH. split.
        -- intros (row' & Hin & Hrow'). exists row'. split; [|done].
           apply elem_of_app. by left.
        -- intros (row' & Hin & Hrow'). exists row'. split; [|done].
           apply elem_of_app in Hin as [Hin|Hin]; [done|].
           apply list_elem_of_singleton in Hin as ->.
           rewrite Hrow in Hrow'. injection Hrow' as -> -> ->. tauto.
    + rewrite IH. split.
      * intros (row' & Hin & Hrow'). exists row'. split; [|done].
        apply elem_of_app. by left.
      * intros (row' & Hin & Hrow'). exists row'. split; [|done].
        apply elem_of_app in Hin as [Hin|Hin]; [done|].
        apply list_elem_of_singleton in Hin as ->. congruence.
Qed.

(** No identifier is held with an empty map. *)
Lemma scan_nonempty ids args rows id key_map :
  candidates (scan ids args rows) !! id = Some key_map ->
  ∃ key v, key_map !! key = Some v.
Proof.
  revert key_map. induction rows as [|row rows IH] using rev_ind; intros key_map.
  - unfold scan. simpl. by rewrite lookup_empty.
  - rewrite scan_snoc. unfold scan_row.
    destruct (filter_row ids args row) as [[[i k] w]|]; simpl; [|apply IH].
    unfold register. rewrite lookup_insert. case_decide as Hid; [|apply IH].
    intros [= <-]. exists k, w. apply lookup_insert_eq.
Qed.

Lemma candidates_ext (c1 c2 : gmap Z (gmap pystr coord)) :
  (∀ id km, c1 !! id = Some km -> ∃ key v, km !! key = Some v) ->
  (∀ id km, c2 !! id = Some km -> ∃ key v, km !! key = Some v) ->
  (∀ id key, candidate c1 id key = candidate c2 id key) ->
  c1 = c2.
Proof.
  intros N1 N2 Heq. apply map_eq. intros id.
  destruct (c1 !! id) as [km1|] eqn:H1, (c2 !! id) as [km2|] eqn:H2; [| | |done].
  - f_equal. apply map_eq. intros key. specialize (Heq id key).
    unfold candidate in Heq. by rewrite H1, H2 in Heq.
  - destruct (N1 _ _ H1) as (key & v & Hv). specialize (Heq id key).
    unfold candidate in Heq. rewrite H1, H2, Hv in Heq. done.
  - destruct (N2 _ _ H2) as (key & v & Hv). specialize (Heq id key).
    unfold candidate in Heq. rewrite H1, H2, Hv in Heq. done.
Qed.

Lemma total_candidates_insert (id : Z) (km : gmap pystr coord)
    (c : gmap Z (gmap pystr coord)) :
  c !! id = None ->
  total_candidates (<[id := km]> c) = (size km + total_candidates c)%nat.
Proof.
  intros H. unfold total_candidates. by rewrite (map_to_list_insert _ _ _ H).
Qed.

Lemma total_candidates_lookup (id : Z) (km : gmap pystr coord)
    (c : gmap Z (gmap pystr coord)) :
  c !! id = Some km ->
  total_candidates c = (size km + total_candidates (delete id c))%nat.
Proof.
  intros H. rewrite <- (insert_id c id km H) at 1. rewrite <- insert_delete_eq.
  apply total_candidates_insert, lookup_delete_eq.
Qed.

(** Registering a row adds at most one (identifier, key) pair. *)
Lemma total_candidates_register id key v c :
  (total_candidates (register id key v c) ≤ S (total_candidates c))%nat.
Proof.
  unfold register. rewrite <- insert_delete_eq.
  rewrite total_candidates_insert by apply lookup_delete_eq.
  destruct (c !! id) as [km|] eqn:H; simpl.
  - rewrite (total_candidates_lookup _ _ _ H), map_size_insert.
    destruct (km !! key); unfold Datatypes.id; lia.
  - rewrite (delete_id _ _ H), map_size_insert, lookup_empty, map_size_empty. lia.
Qed.

Lemma scan_counters ids args rows :
  let st := scan ids args rows in
  seen_rows st = length rows
  ∧ (kept_rows st ≤ seen_rows st)%nat
  ∧ (total_candidates (candidates st) ≤ kept_rows st)%nat.
Proof.
  cbv zeta. induction rows as [|row rows (IH1 & IH2 & IH3)] using rev_ind.
  - unfold scan, total_candidates. simpl. by rewrite map_to_list_empty.
  - rewrite scan_snoc, length_app. unfold scan_row. simpl.
    destruct (filter_row ids args row) as [[[i k] w]|]; simpl.
    + pose proof (total_candidates_register i k w
        (candidates (scan ids args rows))). lia.
    + lia.
Qed.

(** ** The order of strings and the sorted items *)

Lemma str_leb_refl a : str_leb a a = true.
Proof.
  induction a as [|x a IH]; [done|]. simpl.
  by rewrite N.ltb_irrefl, N.eqb_refl, IH.
Qed.

Lemma str_leb_total a b : str_leb a b = true ∨ str_leb b a = true.
Proof.
  revert b. induction a as [|x a IH]; intros [|y b]; simpl; auto.
  destruct (N.lt_trichotomy x y) as [Hlt|[->|Hgt]].
  - left. apply N.ltb_lt in Hlt. by rewrite Hlt.
  - rewrite N.ltb_irrefl, N.eqb_refl. simpl. apply IH.
  - right. apply N.ltb_lt in Hgt. by rewrite Hgt.
Qed.

Lemma str_leb_cons x a y b :
  str_leb (x :: a) (y :: b) = true ↔ x < y ∨ (x = y ∧ str_leb a b = true).
Proof.
  simpl. rewrite orb_true_iff, andb_true_iff, N.ltb_lt, N.eqb_eq. tauto.
Qed.

Lemma str_leb_antisym a b : str_leb a b = true -> str_leb b a = true -> a = b.
Proof.
  revert b. induction a as [|x a IH]; intros [|y b]; try done.
  rewrite !str_leb_cons. intros [H1|[-> H1]] [H2|[H2 H3]]; try lia.
  f_equal. by apply IH.
Qed.

Lemma str_leb_trans a b c :
  str_leb a b = true -> str_leb b c = true -> str_leb a c = true.
Proof.
  revert b c. induction a as [|x a IH]; intros [|y b] [|z c]; try done.
  rewrite !str_leb_cons. intros [H1|[-> H1]] [H2|[-> H2]]; try (left; lia).
  right. split; [done|]. by apply (IH b).
Qed.

#[global] Instance by_id_total {V} : Total (@by_id V).
Proof. intros a b. unfold by_id. lia. Qed.
#[global] Instance by_id_trans {V} : Transitive (@by_id V).
Proof. intros a b c. unfold by_id. lia. Qed.
#[global] Instance by_key_total {V} : Total (@by_key V).
Proof. intros a b. apply str_leb_total. Qed.
#[global] Instance by_key_trans {V} : Transitive (@by_key V).
Proof. intros a b c. apply str_leb_trans. Qed.

(** Sorting the items of a map by key does not depend on the order in
    which they are enumerated. *)
Lemma sorted_items_unique `{Countable K} {V} (R : relation (K * V))
    `{!RelDecision R, !Transitive R, !Total R} (m : gmap K V) l :
  (∀ x y, R x y -> R y x -> x.1 = y.1) ->
  l ≡ₚ map_to_list m ->
  merge_sort R l = merge_sort R (map_to_list m).
Proof.
  intros Hanti Hperm. apply (StronglySorted_unique_strong R).
  - intros [k1 v1] [k2 v2] H1 H2 R12 R21.
    rewrite merge_sort_Permutation in H1, H2. rewrite Hperm in H1.
    apply elem_of_map_to_list in H1, H2.
    pose proof (Hanti _ _ R12 R21) as Hk. simpl in Hk. subst k2. congruence.
  - by apply StronglySorted_merge_sort.
  - by apply StronglySorted_merge_sort.
  - by rewrite !merge_sort_Permutation.
Qed.

Lemma sorted_by_id_unique {V} (m : gmap Z V) l :
  l ≡ₚ map_to_list m -> sorted_by_id l = sorted_by_id (map_to_list m).
Proof.
  apply sorted_items_unique; [apply _..|]. unfold by_id. intros x y. lia.
Qed.

Lemma sorted_by_key_unique {V} (m : gmap pystr V) l :
  l ≡ₚ map_to_list m -> sorted_by_key l = sorted_by_key (map_to_list m).
Proof.
  apply sorted_items_unique; [apply _..|]. intros x y. apply str_leb_antisym.
Qed.

(** ** The tables as a function of the candidates *)

Lemma fold_left_ext {A B} (f g : A -> B -> A) l a :
  (∀ a b, f a b = g a b) -> fold_left f l a = fold_left g l a.
Proof.
  intros Hfg. revert a. induction l as [|b l IH]; intros a; [done|].
  simpl. by rewrite Hfg, IH.
Qed.

Lemma fold_write_ambiguous variation_id key_map items st :
  fold_left (write_ambiguous variation_id key_map) items st
  = {| out := out st;
       amb := amb st ++ (ambiguous_row variation_id (size key_map) <$> items);
       unique_written := unique_written st;
       ambiguous_written := ambiguous_written st + length items |}.
Proof.
  revert st. induction items as [|item items IH]; intros st; simpl.
  - destruct st. simpl. by rewrite app_nil_r, Nat.add_0_r.
  - rewrite IH. unfold write_ambiguous. simpl.
    rewrite <- app_assoc. f_equal. lia.
Qed.

Lemma write_mapping_spec st item :
  write_mapping map_to_list st item
  = {| out := out st ++ unique_part item;
       amb := amb st ++ ambiguous_part item;
       unique_written := unique_written st + length (unique_part item);
       ambiguous_written := ambiguous_written st + length (ambiguous_part item) |}.
Proof.
  destruct item as [variation_id key_map].
  unfold write_mapping, unique_part, ambiguous_part. simpl.
  case_bool_decide as Hsize.
  - destruct (map_to_list key_map) as [|only rest]; destruct st; simpl;
      rewrite ?app_nil_r, ?Nat.add_0_r; f_equal; lia.
  - rewrite fold_write_ambiguous, length_fmap. simpl.
    by rewrite app_nil_r, Nat.add_0_r.
Qed.

Lemma fold_write_mapping items st :
  fold_left (write_mapping map_to_list) items st
  = {| out := out st ++ (items ≫= unique_part);
       amb := amb st ++ (items ≫= ambiguous_part);
       unique_written := unique_written st + length (items ≫= unique_part);
       ambiguous_written :=
         ambiguous_written st + length (items ≫= ambiguous_part) |}.
Proof.
  revert st. induction items as [|item items IH]; intros st.
  - destruct st. simpl. by rewrite !app_nil_r, !Nat.add_0_r.
  - cbn [fold_left]. rewrite IH, write_mapping_spec, !bind_cons.
    cbn [out amb unique_written ambiguous_written].
    rewrite !length_app, <- !app_assoc. f_equal; lia.
Qed.

Lemma write_tables_spec c :
  let items := sorted_by_id (map_to_list c) in
  out (write_tables c) = header :: (items ≫= unique_part)
  ∧ amb (write_tables c)
    = (header ++ [CStr (str "n_candidates")]) :: (items ≫= ambiguous_part)
  ∧ unique_written (write_tables c) = length (items ≫= unique_part)
  ∧ ambiguous_written (write_tables c) = length (items ≫= ambiguous_part).
Proof.
  cbv zeta. unfold write_tables, write_tables_in. by rewrite fold_write_mapping.
Qed.

(** The tables do not depend on the order in which the dictionaries are
    enumerated. *)
Lemma write_mapping_any_order key_items st item :
  (∀ m, key_items m ≡ₚ map_to_list m) ->
  write_mapping key_items st item = write_mapping map_to_list st item.
Proof.
  intros Hperm. destruct item as [variation_id key_map]. unfold write_mapping.
  case_bool_decide as Hsize.
  - rewrite <- length_map_to_list in Hsize.
    destruct (map_to_list key_map) as [|only [|]] eqn:Hlist; try done.
    specialize (Hperm key_map). rewrite Hlist in Hperm.
    apply Permutation_singleton_r in Hperm. by rewrite Hperm.
  - by rewrite (sorted_by_key_unique key_map).
Qed.

Lemma write_tables_any_order candidate_items key_items c :
  (∀ m, candidate_items m ≡ₚ map_to_list m) ->
  (∀ m, key_items m ≡ₚ map_to_list m) ->
  write_tables_in candidate_items key_items c = write_tables c.
Proof.
  intros Hc Hk. unfold write_tables, write_tables_in.
  rewrite (sorted_by_id_unique c) by done.
  apply fold_left_ext. intros st item. by apply write_mapping_any_order.
Qed.

(** ** The reader of the sample corpus *)

Lemma add_record_size obj (ids : gset Z) :
  (size (add_record obj ids) ≤ S (size ids))%nat.
Proof.
  unfold add_record. destruct (record_id obj) as [i|]; [|lia].
  rewrite size_union_alt, size_singleton.
  assert (ids ∖ {[i]} ⊆ ids) as Hsub%subseteq_size by apply subseteq_difference_l, reflexivity.
  lia.
Qed.

Lemma read_ids_size n f (ids s : gset Z) :
  read_ids n f ids = Ok s ->
  (Z.of_nat (size s) ≤ Z.max (Z.of_nat (size ids)) n)%Z.
Proof.
  revert ids. induction f as [|e f IH]; intros ids; simpl.
  - destruct (Z.of_nat (size ids) <? n)%Z; intros [= <-]; lia.
  - destruct (Z.of_nat (size ids) <? n)%Z eqn:Hlt; [|intros [= <-]; lia].
    apply Z.ltb_lt in Hlt. destruct e as [obj|]; [|done].
    intros Hs%IH. pose proof (add_record_size obj ids). lia.
Qed.

Lemma read_ids_clean n f (ids : gset Z) :
  Forall (fun e => e ≠ Corrupt) f -> ∃ s, read_ids n f ids = Ok s.
Proof.
  intros Hclean. revert ids.
  induction Hclean as [|e f He _ IH]; intros ids; simpl.
  - destruct (Z.of_nat (size ids) <? n)%Z; eauto.
  - destruct (Z.of_nat (size ids) <? n)%Z; [|eauto].
    destruct e as [obj|]; [apply IH|done].
Qed.

(** C8. The reader returns a set of integers of at most [max_ids] elements
    (for a maximum count, which is not negative); on a stream that unpickles
    cleanly it returns normally, whatever the records are; a record that is
    not a dictionary, has no "ID" entry, or whose "ID" value [int] refuses
    changes nothing; and the end of the stream ends the read with the
    identifiers collected. *)
Theorem read_ids_bounded_best_effort (n : Z) (f : list load_event) :
  ((0 ≤ n)%Z -> ∀ s, read_ids n f ∅ = Ok s -> (Z.of_nat (size s) ≤ n)%Z)
  ∧ (Forall (fun e => e ≠ Corrupt) f -> ∃ s, read_ids n f ∅ = Ok s)
  ∧ (∀ obj rest ids,
       (∀ entries, obj = PyDict entries ->
          match entries !! str "ID" with
          | Some value => py_int value = None
          | None => True
          end) ->
       read_ids n (Loaded obj :: rest) ids = read_ids n rest ids)
  ∧ (∀ ids, read_ids n [] ids = Ok ids).
Proof.
  repeat split.
  - intros Hn s Hs%read_ids_size. rewrite size_empty in Hs. lia.
  - apply read_ids_clean.
  - intros obj rest ids Hskip. simpl.
    assert (add_record obj ids = ids) as ->.
    { unfold add_record, record_id. destruct obj as [| | | | | |entries|]; try done.
      specialize (Hskip entries eq_refl).
      destruct (entries !! str "ID"); [by rewrite Hskip|done]. }
    destruct (Z.of_nat (size ids) <? n)%Z eqn:Hlt; [done|].
    destruct rest as [|[obj'|] rest]; simpl; by rewrite Hlt.
  - intros ids. simpl. by destruct (Z.of_nat (size ids) <? n)%Z.
Qed.

Lemma read_ids_bounded_best_effort_witness :
  (0 ≤ 2)%Z
  ∧ read_ids 2 sample_stream ∅ = Ok {[10%Z; 20%Z]}
  ∧ (∀ s, read_ids 2 sample_stream ∅ = Ok s -> (Z.of_nat (size s) ≤ 2)%Z).
Proof.
  split; [lia|]. split; [by vm_compute|].
  apply (proj1 (read_ids_bounded_best_effort 2 sample_stream)). lia.
Defined.

(** ** The filters *)

(** C2. Scanning the same rows in another order leaves the same candidates:
    the mapping from identifiers to candidate maps is equal for every
    permutation of the rows. *)
Theorem scan_order_independent ids args (rows rows' : list ReferenceRow) :
  rows ≡ₚ rows' ->
  candidates (scan ids args rows) = candidates (scan ids args rows').
Proof.
  intros Hperm. apply candidates_ext.
  - apply scan_nonempty.
  - apply scan_nonempty.
  - intros id key. apply option_eq. intros v. rewrite !scan_candidate.
    by setoid_rewrite Hperm.
Qed.

Lemma scan_order_independent_witness :
  sample_rows ≡ₚ sample_rows_reordered
  ∧ candidates (scan {[10%Z; 20%Z; 30%Z]} default_args sample_rows)
    = candidates (scan {[10%Z; 20%Z; 30%Z]} default_args sample_rows_reordered).
Proof.
  assert (sample_rows ≡ₚ sample_rows_reordered) as Hperm.
  { unfold sample_rows_reordered. by rewrite reverse_Permutation. }
  split; [exact Hperm|].
  exact (scan_order_independent _ _ _ _ Hperm).
Defined.

(** C3, as the claim words it, fails: a position written with the
    Arabic-Indic digits U+0661 U+0662 U+0663 is kept although none of its
    characters is one of 0-9. *)
Lemma position_non_ascii_digits_kept :
  filter_row {[10%Z]} default_args arabic_position_row
  = Some (10%Z, str "1_" ++ [0x661; 0x662; 0x663] ++ str "_A_G",
          (str "1", [0x661; 0x662; 0x663], str "A", str "G"))
  ∧ ¬ Forall (fun c => is_ascii_digit c = true)
        (strip (or_empty (PositionVCF arabic_position_row))).
Proof.
  split; [by vm_compute|].
  intros H. apply Forall_cons in H as [H _]. by vm_compute in H.
Qed.

Lemma filter_row_isdigit ids args row :
  is_Some (filter_row ids args row) ->
  isdigit (strip (or_empty (PositionVCF row))) = true.
Proof.
  intros [[[id key] v] Hrow]. apply filter_row_inv in Hrow as (_ & _ & _ & Hrow).
  by apply coordinate_filter_inv in Hrow as (_ & _ & _ & _ & _ & _ & D & _).
Qed.

(** Among the ASCII characters, [str.isdigit] holds of 0-9 only. *)
Lemma char_isdigit_ascii c : c < 0x80 -> char_isdigit c = is_ascii_digit c.
Proof.
  intros Hc. unfold char_isdigit, is_ascii_digit, in_ranges.
  assert (existsb (fun '(lo, hi) => (lo <=? c) && (c <=? hi)) (tail digit_table)
          = false) as Hrest.
  { apply not_true_iff_false. intros Hex.
    apply existsb_exists in Hex as ([lo hi] & Hin & Hr).
    apply andb_prop in Hr as [Hr _]. apply N.leb_le in Hr.
    assert (forallb (fun '(lo, _) => 0x80 <=? lo) (tail digit_table) = true)
      as Hall by (vm_compute; reflexivity).
    rewrite forallb_forall in Hall. apply Hall in Hin. apply N.leb_le in Hin. lia. }
  change digit_table with ((0x30, 0x39) :: tail digit_table).
  cbn [existsb]. rewrite Hrest. apply orb_false_r.
Qed.

(** C3, amended. A row is kept only if its trimmed position is not empty and
    each of its characters is a digit for [str.isdigit]; a position with a
    character that is not such a digit is rejected.  Among the ASCII
    characters the digits of [str.isdigit] are exactly 0-9. *)
Theorem position_filter_isdigit ids args (row : ReferenceRow) :
  let pos := strip (or_empty (PositionVCF row)) in
  (is_Some (filter_row ids args row) ->
     pos ≠ [] ∧ Forall (fun c => char_isdigit c = true) pos)
  ∧ (∀ c, c ∈ pos -> char_isdigit c = false -> filter_row ids args row = None)
  ∧ (∀ c, c < 0x80 -> char_isdigit c = is_ascii_digit c).
Proof.
  cbv zeta. split; [|split].
  - intros D%filter_row_isdigit. split; [|by apply isdigit_Forall].
    by destruct (strip (or_empty (PositionVCF row))).
  - intros c Hc Hnot. destruct (filter_row ids args row) eqn:Hrow; [|done].
    assert (isdigit (strip (or_empty (PositionVCF row))) = true) as D.
    { apply (filter_row_isdigit ids args). rewrite Hrow. eauto. }
    apply isdigit_Forall in D. rewrite Forall_forall in D.
    specialize (D c Hc). congruence.
  - apply char_isdigit_ascii.
Qed.

(** C4. For a wanted row: when the configured assembly and the trimmed
    assembly of the row are both non-empty and differ, the row is rejected;
    when either is empty the assembly test lets the row through and the
    outcome is that of the later tests. *)
Theorem assembly_filter ids args (row : ReferenceRow) (id : Z) :
  variation_id_of row = Some id -> id ∈ ids ->
  let row_assembly := strip (or_empty (Assembly row)) in
  (assembly args ≠ [] -> row_assembly ≠ [] -> row_assembly ≠ assembly args ->
     filter_row ids args row = None)
  ∧ (row_assembly = [] ∨ assembly args = [] ->
     assembly_rejects args row = false
     ∧ filter_row ids args row
       = (fun kv => (id, kv.1, kv.2)) <$> coordinate_filter row).
Proof.
  intros Hid Hin. cbv zeta. unfold filter_row, assembly_rejects, truthy.
  rewrite Hid. rewrite (bool_decide_eq_false_2 (id ∉ ids)) by tauto. split.
  - intros H1 H2 H3. by rewrite !bool_decide_eq_true_2.
  - intros [H|H]; rewrite H.
    + rewrite (bool_decide_eq_false_2 ([] ≠ [])) by tauto.
      by rewrite andb_false_r.
    + by rewrite (bool_decide_eq_false_2 ([] ≠ [])) by tauto.
Qed.

Lemma assembly_filter_witness :
  filter_row {[20%Z]} default_args
    (sample_row (str "20") (str "GRCh37") (str "2") (str "150") (str "C") (str "T"))
  = None
  ∧ filter_row {[20%Z]} default_args
      (sample_row (str "20") (str "") (str "2") (str "100") (str "C") (str "T"))
    = Some (20%Z, str "2_100_C_T", (str "2", str "100", str "C", str "T")).
Proof.
  split.
  - apply (assembly_filter {[20%Z]} default_args _ 20);
      [by vm_compute|by apply elem_of_singleton|by vm_compute..].
  - pose proof (assembly_filter {[20%Z]} default_args
      (sample_row (str "20") (str "") (str "2") (str "100") (str "C") (str "T")) 20)
      as H.
    destruct H as [_ H]; [by vm_compute|by apply elem_of_singleton|].
    destruct H as [_ ->]; [by left|]. by vm_compute.
Defined.

(** C5. A row is kept only if its reference and its alternate allele are,
    once trimmed, a single letter among A, C, G, T in either case (so an
    allele of several characters is rejected); the row then registers, under
    the key string built from them, the tuple with both alleles in upper
    case, each one of "A", "C", "G", "T". *)
Theorem allele_filter ids args (row : ReferenceRow) id key v :
  filter_row ids args row = Some (id, key, v) ->
  let chrom := strip (or_empty (Chromosome row)) in
  let pos := strip (or_empty (PositionVCF row)) in
  let ref := strip (or_empty (ReferenceAlleleVCF row)) in
  let alt := strip (or_empty (AlternateAlleleVCF row)) in
  ref ∈ nucleotides ∧ alt ∈ nucleotides
  ∧ length ref = 1%nat ∧ length alt = 1%nat
  ∧ upper ref ∈ [str "A"; str "C"; str "G"; str "T"]
  ∧ upper alt ∈ [str "A"; str "C"; str "G"; str "T"]
  ∧ v = (chrom, pos, upper ref, upper alt)
  ∧ key = chrom ++ str "_" ++ pos ++ str "_" ++ upper ref ++ str "_" ++ upper alt
  ∧ ∀ st, candidate (candidates (scan_row ids args st row)) id key = Some v.
Proof.
  intros Hrow. cbv zeta.
  pose proof Hrow as (_ & _ & _ & Hc)%filter_row_inv.
  apply coordinate_filter_inv in Hc as (Hv & Hk & _ & _ & _ & _ & _ & R & A).
  assert (∀ s, s ∈ nucleotides -> length s = 1%nat) as Hlen.
  { intros s Hs. unfold nucleotides in Hs. cases_of Hs; by subst s. }
  repeat split; auto using upper_nucleotide.
  - by rewrite Hk, Hv.
  - intros st. unfold scan_row. rewrite Hrow. simpl.
    rewrite candidate_register. by rewrite decide_True.
Qed.

Lemma allele_filter_witness :
  let row := sample_row (str "20") (str "GRCh38") (str "2") (str "200")
               (str " c") (str "T ") in
  filter_row {[20%Z]} default_args row
  = Some (20%Z, str "2_200_C_T", (str "2", str "200", str "C", str "T"))
  ∧ strip (or_empty (ReferenceAlleleVCF row)) ∈ nucleotides.
Proof.
  cbv zeta.
  assert (filter_row {[20%Z]} default_args
            (sample_row (str "20") (str "GRCh38") (str "2") (str "200")
               (str " c") (str "T "))
          = Some (20%Z, str "2_200_C_T", (str "2", str "200", str "C", str "T")))
    as Hrow by (by vm_compute).
  split; [exact Hrow|].
  exact (proj1 (allele_filter _ _ _ _ _ _ Hrow)).
Defined.

(** ** The rows of the tables *)

Lemma row_id_unique_row id kv : row_id (unique_row id kv) = Some id.
Proof. by destruct kv as [k [[[? ?] ?] ?]]. Qed.

Lemma row_id_ambiguous_row id n kv : row_id (ambiguous_row id n kv) = Some id.
Proof. by destruct kv as [k [[[? ?] ?] ?]]. Qed.

Lemma row_key_ambiguous_row id n kv : row_key (ambiguous_row id n kv) = Some kv.1.
Proof. by destruct kv as [k [[[? ?] ?] ?]]. Qed.

Lemma row_n_candidates_ambiguous_row id n kv :
  row_n_candidates (ambiguous_row id n kv) = Some (Z.of_nat n).
Proof. by destruct kv as [k [[[? ?] ?] ?]]. Qed.

Lemma unique_part_elem item row :
  row ∈ unique_part item ->
  size item.2 = 1%nat ∧ ∃ kv, kv ∈ map_to_list item.2 ∧ row = unique_row item.1 kv.
Proof.
  unfold unique_part. case_bool_decide as Hsize; [|by intros ?%elem_of_nil].
  intros (kv & -> & Hkv)%list_elem_of_fmap. split; [done|].
  exists kv. split; [|done]. by apply subseteq_take in Hkv.
Qed.

Lemma ambiguous_part_elem item row :
  row ∈ ambiguous_part item ->
  size item.2 ≠ 1%nat
  ∧ ∃ kv, kv ∈ map_to_list item.2
          ∧ row = ambiguous_row item.1 (size item.2) kv.
Proof.
  unfold ambiguous_part. case_bool_decide as Hsize; [by intros ?%elem_of_nil|].
  intros (kv & -> & Hkv)%list_elem_of_fmap. split; [done|].
  exists kv. split; [|done]. unfold sorted_by_key in Hkv.
  by rewrite merge_sort_Permutation in Hkv.
Qed.

Lemma unique_part_id item row : row ∈ unique_part item -> row_id row = Some item.1.
Proof. intros (_ & kv & _ & ->)%unique_part_elem. apply row_id_unique_row. Qed.

Lemma ambiguous_part_id item row :
  row ∈ ambiguous_part item -> row_id row = Some item.1.
Proof. intros (_ & kv & _ & ->)%ambiguous_part_elem. apply row_id_ambiguous_row. Qed.

Lemma unique_part_length item :
  length (unique_part item) = if bool_decide (size item.2 = 1%nat) then 1%nat else 0%nat.
Proof.
  unfold unique_part. case_bool_decide as Hsize; [|done].
  rewrite length_fmap, length_take, length_map_to_list. lia.
Qed.

Lemma ambiguous_part_length item :
  length (ambiguous_part item)
  = if bool_decide (size item.2 = 1%nat) then 0%nat else size item.2.
Proof.
  unfold ambiguous_part, sorted_by_key. case_bool_decide as Hsize; [done|].
  by rewrite length_fmap, merge_sort_Permutation, length_map_to_list.
Qed.

Lemma count_id_app id t1 t2 :
  count_id id (t1 ++ t2) = (count_id id t1 + count_id id t2)%nat.
Proof. unfold count_id. by rewrite filter_app, length_app. Qed.

Lemma count_id_all id t :
  (∀ row, row ∈ t -> row_id row = Some id) -> count_id id t = length t.
Proof.
  unfold count_id. induction t as [|row t IH]; intros Hall; [done|].
  rewrite filter_cons_True by (apply Hall; left). simpl. f_equal.
  apply IH. intros r Hr. apply Hall. by right.
Qed.

Lemma count_id_none id t :
  (∀ row, row ∈ t -> row_id row ≠ Some id) -> count_id id t = 0%nat.
Proof.
  unfold count_id. induction t as [|row t IH]; intros Hall; [done|].
  rewrite filter_cons_False by (apply Hall; left).
  apply IH. intros r Hr. apply Hall. by right.
Qed.

(** The rows of an identifier come from its own entry only. *)
Lemma count_id_items (id : Z) (part : Z * gmap pystr coord -> list (list cell))
    (c : gmap Z (gmap pystr coord)) (items : list (Z * gmap pystr coord)) :
  (∀ item row, row ∈ part item -> row_id row = Some item.1) ->
  items ≡ₚ map_to_list c ->
  count_id id (items ≫= part)
  = match c !! id with
    | Some key_map => length (part (id, key_map))
    | None => 0%nat
    end.
Proof.
  intros Hpart Hperm.
  assert (∀ c' : gmap Z (gmap pystr coord), c' !! id = None ->
            count_id id (map_to_list c' ≫= part) = 0%nat) as Hother.
  { intros c' Hnone. apply count_id_none. intros row Hrow.
    apply list_elem_of_bind in Hrow as ([i km] & Hrow & Hitem).
    apply elem_of_map_to_list in Hitem. rewrite (Hpart _ _ Hrow). simpl.
    intros [= ->]. congruence. }
  unfold count_id in *. rewrite Hperm.
  destruct (c !! id) as [km|] eqn:Hid; [|by apply Hother].
  rewrite <- (map_to_list_delete _ _ _ Hid), bind_cons.
  fold (count_id id (part (id, km) ++ map_to_list (delete id c) ≫= part)).
  rewrite count_id_app, count_id_all by (intros row Hrow; apply (Hpart _ _ Hrow)).
  unfold count_id. rewrite Hother by apply lookup_delete_eq. lia.
Qed.

Lemma count_id_header id (h : list cell) t :
  row_id h = None -> count_id id (h :: t) = count_id id t.
Proof.
  intros Hh. unfold count_id. rewrite filter_cons_False; [done|]. by rewrite Hh.
Qed.

Lemma header_row_id : row_id header = None.
Proof. done. Qed.

Lemma ambiguous_header_row_id : row_id (header ++ [CStr (str "n_candidates")]) = None.
Proof. done. Qed.

(** The rows of an identifier in the two tables, by the size of its map. *)
Lemma write_tables_count (c : gmap Z (gmap pystr coord)) (id : Z) :
  let n := match c !! id with Some key_map => size key_map | None => 0%nat end in
  count_id id (out (write_tables c)) = (if bool_decide (n = 1%nat) then 1 else 0)%nat
  ∧ count_id id (amb (write_tables c)) = (if bool_decide (n = 1%nat) then 0 else n)%nat.
Proof.
  cbv zeta. destruct (write_tables_spec c) as (-> & -> & _ & _).
  rewrite !count_id_header by done.
  rewrite (count_id_items id unique_part c), (count_id_items id ambiguous_part c);
    [|apply ambiguous_part_id|apply merge_sort_Permutation
     |apply unique_part_id|apply merge_sort_Permutation].
  destruct (c !! id) as [km|]; [|done].
  by rewrite unique_part_length, ambiguous_part_length.
Qed.

Lemma write_tables_n_candidates (c : gmap Z (gmap pystr coord)) id key_map row :
  c !! id = Some key_map ->
  row ∈ amb (write_tables c) -> row_id row = Some id ->
  row_n_candidates row = Some (Z.of_nat (size key_map)).
Proof.
  intros Hid. destruct (write_tables_spec c) as (_ & -> & _ & _).
  intros [->|Hrow]%elem_of_cons; [done|].
  apply list_elem_of_bind in Hrow as ([i km] & Hrow & Hitem).
  unfold sorted_by_id in Hitem. rewrite merge_sort_Permutation in Hitem.
  apply elem_of_map_to_list in Hitem.
  apply ambiguous_part_elem in Hrow as (_ & kv & _ & ->). simpl.
  rewrite row_id_ambiguous_row, row_n_candidates_ambiguous_row.
  intros [= ->]. congruence.
Qed.

(** ** The candidates and the surviving coordinates *)

Lemma elem_of_surviving ids args rows id v :
  v ∈ surviving ids args rows id
  ↔ ∃ key, candidate (candidates (scan ids args rows)) id key = Some v.
Proof.
  unfold surviving. rewrite elem_of_list_to_set, list_elem_of_omap. split.
  - intros (row & Hin & Hrow).
    destruct (filter_row ids args row) as [[[i k] w]|] eqn:Hf; [|done].
    case_bool_decide as Hi; [|done]. injection Hrow as ->. subst i.
    exists k. apply scan_candidate. eauto.
  - intros (key & (row & Hin & Hrow)%scan_candidate).
    exists row. split; [done|]. rewrite Hrow. by rewrite bool_decide_eq_true_2.
Qed.

(** Every stored tuple sits under its own key string. *)
Lemma scan_key_of ids args rows id key_map key v :
  candidates (scan ids args rows) !! id = Some key_map ->
  key_map !! key = Some v -> key = key_of v.
Proof.
  intros Hid Hkey.
  assert (candidate (candidates (scan ids args rows)) id key = Some v) as Hc.
  { unfold candidate. by rewrite Hid. }
  apply scan_candidate in Hc as (row & _ & Hrow).
  by apply filter_row_key_of in Hrow as [_ ->].
Qed.

(** The number of distinct surviving coordinates of an identifier is the
    size of its candidate map. *)
Lemma surviving_size ids args rows id :
  size (surviving ids args rows id)
  = match candidates (scan ids args rows) !! id with
    | Some key_map => size key_map
    | None => 0%nat
    end.
Proof.
  destruct (candidates (scan ids args rows) !! id) as [km|] eqn:Hid.
  - assert (surviving ids args rows id = list_to_set (map_to_list km).*2) as ->.
    { apply set_eq. intros v.
      rewrite elem_of_surviving, elem_of_list_to_set, list_elem_of_fmap.
      unfold candidate. rewrite Hid. split.
      - intros (key & Hkey). exists (key, v). split; [done|].
        by apply elem_of_map_to_list.
      - intros ([key w] & -> & Hkv). exists key. by apply elem_of_map_to_list. }
    rewrite size_list_to_set, length_fmap, length_map_to_list; [done|].
    apply (NoDup_fmap_1 (fun v => (key_of v, v))).
    rewrite <- list_fmap_compose.
    assert ((fun v => (key_of v, v)) ∘ snd <$> map_to_list km = map_to_list km)
      as ->; [|apply NoDup_map_to_list].
    rewrite <- (list_fmap_id (map_to_list km)) at 2. apply list_fmap_ext.
    intros i [key v] Hkv%list_elem_of_lookup_2%elem_of_map_to_list. simpl.
    by rewrite <- (scan_key_of ids args rows _ _ _ _ Hid Hkv).
  - apply size_empty_iff, set_equiv. intros v. split; [|by intros ?%elem_of_empty].
    intros (key & Hkey)%elem_of_surviving. unfold candidate in Hkey.
    by rewrite Hid in Hkey.
Qed.

(** C1. With [n] the number of distinct coordinates that survive the filters
    for an identifier: if [n] is one, the identifier is on exactly one row of
    the unique table and on none of the ambiguous table; if [n] is two or
    more, it is on exactly [n] rows of the ambiguous table, each with
    [n_candidates] equal to [n], and on none of the unique table; if [n] is
    zero it is in neither table. *)
Theorem partition_by_candidate_count ids args (rows : list ReferenceRow) (id : Z) :
  let t := write_tables (candidates (scan ids args rows)) in
  let n := size (surviving ids args rows id) in
  (n = 1%nat -> count_id id (out t) = 1%nat ∧ count_id id (amb t) = 0%nat)
  ∧ ((2 ≤ n)%nat ->
       count_id id (amb t) = n ∧ count_id id (out t) = 0%nat
       ∧ ∀ row, row ∈ amb t -> row_id row = Some id ->
                row_n_candidates row = Some (Z.of_nat n))
  ∧ (n = 0%nat -> count_id id (out t) = 0%nat ∧ count_id id (amb t) = 0%nat).
Proof.
  cbv zeta. rewrite surviving_size.
  destruct (write_tables_count (candidates (scan ids args rows)) id) as [-> ->].
  destruct (candidates (scan ids args rows) !! id) as [km|] eqn:Hid.
  - split; [|split].
    + intros Hn. by rewrite !bool_decide_eq_true_2.
    + intros Hn. rewrite !bool_decide_eq_false_2 by lia.
      repeat split. intros row. by apply write_tables_n_candidates.
    + intros Hn. by rewrite !bool_decide_eq_false_2 by lia.
  - split; [|split]; [done|lia|done].
Qed.

(** ** The order of the rows *)

Lemma StronglySorted_strengthen {A} (R S : relation A) l :
  NoDup l ->
  (∀ x y, x ∈ l -> y ∈ l -> x ≠ y -> R x y -> S x y) ->
  StronglySorted R l -> StronglySorted S l.
Proof.
  intros Hnd HRS Hsorted. induction Hsorted as [|x l Hl IH Hx]; [constructor|].
  apply NoDup_cons in Hnd as [Hx' Hnd]. constructor.
  - apply IH; [done|]. intros y z Hy Hz. apply HRS; by right.
  - rewrite Forall_forall in Hx |- *. intros y Hy.
    apply HRS; [by left|by right| |by apply Hx]. intros ->. done.
Qed.

Lemma StronglySorted_bind {A B} (R : relation A) (S : relation B)
    (f : A -> list B) l :
  StronglySorted R l ->
  (∀ x, StronglySorted S (f x)) ->
  (∀ x y a b, R x y -> a ∈ f x -> b ∈ f y -> S a b) ->
  StronglySorted S (l ≫= f).
Proof.
  intros Hsorted Hin Hcross. induction Hsorted as [|x l Hl IH Hx]; [constructor|].
  rewrite bind_cons. apply StronglySorted_app_2; [|apply Hin|apply IH].
  intros a b Ha (y & Hb & Hy)%list_elem_of_bind.
  rewrite Forall_forall in Hx. by apply (Hcross x y); [apply Hx|..].
Qed.

(** The sorted items of a map are strictly ordered, their keys being
    distinct. *)
Lemma sorted_items_strict `{Countable K} {V} (R S : relation (K * V))
    `{!RelDecision R, !Transitive R, !Total R} (m : gmap K V) :
  (∀ x y, x.1 ≠ y.1 -> R x y -> S x y) ->
  StronglySorted S (merge_sort R (map_to_list m)).
Proof.
  intros HRS. apply (StronglySorted_strengthen R).
  - rewrite merge_sort_Permutation. apply NoDup_map_to_list.
  - intros [k1 v1] [k2 v2] H1 H2 Hne. apply HRS. simpl. intros ->.
    rewrite merge_sort_Permutation in H1, H2.
    apply elem_of_map_to_list in H1, H2. congruence.
  - by apply StronglySorted_merge_sort.
Qed.

Lemma sorted_by_id_strict {V} (m : gmap Z V) :
  StronglySorted (fun a b => (a.1 < b.1)%Z) (sorted_by_id (map_to_list m)).
Proof.
  apply sorted_items_strict; [apply _..|]. unfold by_id. intros x y. lia.
Qed.

Lemma sorted_by_key_strict {V} (m : gmap pystr V) :
  StronglySorted (fun a b => str_ltb a.1 b.1 = true)
    (sorted_by_key (map_to_list m)).
Proof.
  apply sorted_items_strict; [apply _..|]. unfold by_key, str_ltb.
  intros x y Hne Hle. apply negb_true_iff, not_true_iff_false.
  intros Hge. by apply Hne, str_leb_antisym.
Qed.

(** C7. After its header, the unique table is in ascending order of
    identifier; after its header, the ambiguous table is in ascending order
    of identifier and, for one identifier, in the order of [str] on the key
    strings. *)
Theorem tables_sorted (c : gmap Z (gmap pystr coord)) :
  StronglySorted unique_before (tail (out (write_tables c)))
  ∧ StronglySorted ambiguous_before (tail (amb (write_tables c))).
Proof.
  destruct (write_tables_spec c) as (-> & -> & _ & _). simpl. split.
  - apply (StronglySorted_bind (fun a b => (a.1 < b.1)%Z));
      [apply sorted_by_id_strict| |].
    + intros [id km]. unfold unique_part. case_bool_decide; [|constructor].
      simpl. destruct (map_to_list km) as [|kv rest]; simpl; repeat constructor.
    + intros x y a b Hlt Ha%unique_part_id Hb%unique_part_id.
      exists x.1, y.1. auto.
  - apply (StronglySorted_bind (fun a b => (a.1 < b.1)%Z));
      [apply sorted_by_id_strict| |].
    + intros [id km]. unfold ambiguous_part. case_bool_decide; [constructor|].
      apply (StronglySorted_fmap _ (fun a b => str_ltb a.1 b.1 = true));
        [|apply sorted_by_key_strict].
      intros kv1 kv2 Hlt. exists id, kv1.1, id, kv2.1.
      rewrite !row_id_ambiguous_row, !row_key_ambiguous_row. simpl. auto 10.
    + intros x y a b Hlt (_ & kv1 & _ & ->)%ambiguous_part_elem
        (_ & kv2 & _ & ->)%ambiguous_part_elem.
      exists x.1, kv1.1, y.1, kv2.1.
      rewrite !row_id_ambiguous_row, !row_key_ambiguous_row. auto 10.
Qed.

(** ** Two runs *)

(** C9. Two runs on the same wanted identifiers and the same rows write the
    same rows to each table, in the same order, whatever the order in which
    either run enumerates its dictionaries; so whatever turns the written
    rows into the bytes of a file gives the same bytes. *)
Theorem tables_any_iteration_order {B : Type}
    (candidate_items candidate_items' :
       gmap Z (gmap pystr coord) -> list (Z * gmap pystr coord))
    (key_items key_items' : gmap pystr coord -> list (pystr * coord))
    (render : list (list cell) -> B)
    (ids : gset Z) (args : Args) (rows : list ReferenceRow) :
  (∀ m, candidate_items m ≡ₚ map_to_list m) ->
  (∀ m, candidate_items' m ≡ₚ map_to_list m) ->
  (∀ m, key_items m ≡ₚ map_to_list m) ->
  (∀ m, key_items' m ≡ₚ map_to_list m) ->
  let t := write_tables_in candidate_items key_items
             (candidates (scan ids args rows)) in
  let t' := write_tables_in candidate_items' key_items'
              (candidates (scan ids args rows)) in
  out t = out t' ∧ amb t = amb t'
  ∧ render (out t) = render (out t') ∧ render (amb t) = render (amb t').
Proof.
  intros H1 H2 H3 H4. cbv zeta.
  by rewrite !write_tables_any_order.
Qed.

Lemma tables_any_iteration_order_witness :
  let c := candidates (scan {[10%Z; 20%Z; 30%Z]} default_args sample_rows) in
  out (write_tables_in map_to_list map_to_list c)
  = out (write_tables_in (fun m => reverse (map_to_list m))
           (fun m => reverse (map_to_list m)) c).
Proof.
  cbv zeta.
  refine (proj1 (tables_any_iteration_order map_to_list
    (fun m => reverse (map_to_list m)) map_to_list
    (fun m => reverse (map_to_list m)) (fun t => t)
    {[10%Z; 20%Z; 30%Z]} default_args sample_rows _ _ _ _));
    intros m; by rewrite ?reverse_Permutation.
Defined.

(** ** The whole run *)

Lemma main_inv args f rows r :
  main args f rows = Ok r ->
  read_ids (max_ids args) f ∅ = Ok (ids r)
  ∧ scanned r = scan (ids r) args rows
  ∧ written r = write_tables (candidates (scanned r)).
Proof.
  unfold main. destruct (read_ids (max_ids args) f ∅) as [wanted|]; [|done].
  by intros [= <-].
Qed.

(** The rows written are as many as the (identifier, key) pairs held. *)
Lemma written_total (c : gmap Z (gmap pystr coord)) :
  (unique_written (write_tables c) + ambiguous_written (write_tables c))%nat
  = total_candidates c.
Proof.
  destruct (write_tables_spec c) as (_ & _ & -> & ->).
  unfold total_candidates, sorted_by_id.
  rewrite <- (merge_sort_Permutation by_id (map_to_list c)) at 3.
  induction (merge_sort by_id (map_to_list c)) as [|item items IH]; [done|].
  rewrite !bind_cons, !length_app, unique_part_length, ambiguous_part_length.
  cbn [sum_list_with]. case_bool_decide; lia.
Qed.

(** C10. At the end of a run the rows kept are at most the rows seen, and
    the data rows written to the two tables, which the two counters of the
    writer count, are together at most the rows kept. *)
Theorem counters_bounded args f (rows : list ReferenceRow) (r : report) :
  main args f rows = Ok r ->
  (kept_rows (scanned r) ≤ seen_rows (scanned r))%nat
  ∧ (unique_written (written r) + ambiguous_written (written r)
     ≤ kept_rows (scanned r))%nat
  ∧ length (out (written r)) = S (unique_written (written r))
  ∧ length (amb (written r)) = S (ambiguous_written (written r))
  ∧ seen_rows (scanned r) = length rows.
Proof.
  intros (_ & Hscan & Hwrite)%main_inv.
  destruct (scan_counters (ids r) args rows) as (Hseen & Hkept & Htotal).
  rewrite <- Hscan in Hseen, Hkept, Htotal.
  pose proof (written_total (candidates (scanned r))) as Hsum.
  destruct (write_tables_spec (candidates (scanned r))) as (Ho & Ha & Hu & Hw).
  rewrite <- Hwrite in Hsum, Ho, Ha, Hu, Hw.
  rewrite Ho, Ha, Hu, Hw. simpl. repeat split; try done. lia.
Qed.

Lemma counters_bounded_witness :
  ∃ r, main default_args sample_stream sample_rows = Ok r
       ∧ (kept_rows (scanned r) ≤ seen_rows (scanned r))%nat
       ∧ (unique_written (written r) + ambiguous_written (written r)
          ≤ kept_rows (scanned r))%nat.
Proof.
  destruct (main default_args sample_stream sample_rows) as [r|] eqn:Hmain.
  - exists r. split; [done|].
    destruct (counters_bounded _ _ _ _ Hmain) as (H1 & H2 & _). by split.
  - by vm_compute in Hmain.
Defined.

(** C6. Every identifier on a row of either table is one of the wanted
    identifiers read from the sample corpus; and every entry of a candidate
    map is the key string and the tuple of a reference row whose
    [VariationID] parses to the identifier of that map and which passes all
    the filters. *)
Theorem tables_within_wanted args f (rows : list ReferenceRow) (r : report) :
  main args f rows = Ok r ->
  read_ids (max_ids args) f ∅ = Ok (ids r)
  ∧ (∀ row id, row ∈ out (written r) ∨ row ∈ amb (written r) ->
               row_id row = Some id -> id ∈ ids r)
  ∧ (∀ id key_map key v,
       candidates (scanned r) !! id = Some key_map -> key_map !! key = Some v ->
       ∃ row, row ∈ rows ∧ variation_id_of row = Some id ∧ id ∈ ids r
              ∧ passes_filters args row ∧ row_coordinate row = (key, v)).
Proof.
  intros (Hread & Hscan & Hwrite)%main_inv. split; [done|].
  assert (∀ id key_map key v,
            candidates (scanned r) !! id = Some key_map -> key_map !! key = Some v ->
            ∃ row, row ∈ rows ∧ filter_row (ids r) args row = Some (id, key, v))
    as Hentry.
  { intros id km key v Hid Hkey. apply scan_candidate.
    unfold candidate. by rewrite <- Hscan, Hid. }
  assert (∀ id key_map, candidates (scanned r) !! id = Some key_map -> id ∈ ids r)
    as Hwanted.
  { intros id km Hid. pose proof Hid as Hne. rewrite Hscan in Hne.
    apply scan_nonempty in Hne as (key & v & Hkey).
    destruct (Hentry _ _ _ _ Hid Hkey) as (row & _ & Hrow).
    by apply filter_row_inv in Hrow as (_ & ? & _). }
  split.
  - intros row id Hrow Hrid.
    destruct (write_tables_spec (candidates (scanned r))) as (Ho & Ha & _ & _).
    rewrite <- Hwrite in Ho, Ha. rewrite Ho, Ha in Hrow.
    assert (∃ item, item ∈ map_to_list (candidates (scanned r))
                    ∧ row_id row = Some item.1) as ([i km] & Hitem & Hi).
    { destruct Hrow as [[->|Hrow]%elem_of_cons|[->|Hrow]%elem_of_cons];
        try done;
        apply list_elem_of_bind in Hrow as (item & Hrow & Hitem);
        unfold sorted_by_id in Hitem; rewrite merge_sort_Permutation in Hitem;
        exists item; (split; [done|]).
      - by apply unique_part_id.
      - by apply ambiguous_part_id. }
    apply elem_of_map_to_list in Hitem. rewrite Hrid in Hi.
    injection Hi as ->. by apply (Hwanted _ km).
  - intros id km key v Hid Hkey.
    destruct (Hentry _ _ _ _ Hid Hkey) as (row & Hin & Hrow).
    exists row. apply filter_row_inv in Hrow as (Hv & Hw & Hasm & Hc).
    apply coordinate_filter_inv in Hc
      as (-> & -> & M1 & M2 & M3 & M4 & D & R & A).
    repeat split; try done.
    unfold assembly_rejects, truthy in Hasm.
    destruct (decide (assembly args = [])) as [?|H1]; [by left|].
    destruct (decide (strip (or_empty (Assembly row)) = [])) as [?|H2];
      [by right; left|].
    right; right. rewrite !bool_decide_eq_true_2 in Hasm by done.
    simpl in Hasm. apply bool_decide_eq_false_1 in Hasm. by apply dec_stable.
Qed.

Lemma tables_within_wanted_witness :
  ∃ r, main default_args sample_stream sample_rows = Ok r
       ∧ ∀ row id, row ∈ out (written r) ∨ row ∈ amb (written r) ->
                   row_id row = Some id -> id ∈ ids r.
Proof.
  destruct (main default_args sample_stream sample_rows) as [r|] eqn:Hmain.
  - exists r. split; [done|].
    by destruct (tables_within_wanted _ _ _ _ Hmain) as (_ & H & _).
  - by vm_compute in Hmain.
Defined.

(** ** The sample run *)

Lemma partition_by_candidate_count_witness :
  size (surviving {[10%Z; 20%Z; 30%Z]} default_args sample_rows 20) = 2%nat
  ∧ count_id 20
      (amb (write_tables
              (candidates (scan {[10%Z; 20%Z; 30%Z]} default_args sample_rows))))
    = 2%nat.
Proof.
  assert (size (surviving {[10%Z; 20%Z; 30%Z]} default_args sample_rows 20)
          = 2%nat) as Hn by (by vm_compute).
  split; [exact Hn|].
  destruct (partition_by_candidate_count {[10%Z; 20%Z; 30%Z]} default_args
              sample_rows 20) as (_ & H & _).
  rewrite Hn in H. destruct H as (H & _); [lia|exact H].
Defined.

Lemma position_filter_isdigit_witness :
  Forall (fun c => char_isdigit c = true)
    (strip (or_empty (PositionVCF arabic_position_row))).
Proof.
  destruct (position_filter_isdigit {[10%Z]} default_args arabic_position_row)
    as (H & _).
  destruct H as [_ H]; [|exact H]. eexists. vm_compute. reflexivity.
Defined.
